(** * Perplexica: the OpenRouter provider loader and the settings dialog

    A shallow embedding of

    - [src/src/lib/providers/openrouter.ts] ([loadOpenRouterChatModels]) and
    - [src/ui/components/SettingsDialog.tsx] ([fetchConfig], [handleSubmit]
      and the two provider [onChange] handlers),

    followed by the properties of the two components.

    JavaScript statements are written in a small state-and-exception monad
    [Eff]: a computation transforms a world and completes either normally or
    abruptly (a thrown value).  Effects performed before a throw stay
    performed, as in JavaScript. *)

From stdpp Require Import base option strings list gmap.
From Stdlib Require Import QArith_base.

Close Scope Q_scope.
Local Open Scope string_scope.

(** ** Completions and the effect monad *)

(** A thrown JavaScript value, as the template literal [`${err}`] or the
    console renders it. *)
Definition thrown := string.

Inductive completion (A : Type) : Type :=
| Normal (a : A)
| Abrupt (e : thrown).
Arguments Normal {A} a.
Arguments Abrupt {A} e.

(** A promise once settled; which way it settles is chosen by the
    environment (the network), so it is an input of the model. *)
Inductive settled (A : Type) : Type :=
| Fulfilled (a : A)
| Rejected (e : thrown).
Arguments Fulfilled {A} a.
Arguments Rejected {A} e.

Section Eff.
Context {W : Type}.

Definition Eff (A : Type) : Type := W -> completion A * W.

Definition ret {A} (a : A) : Eff A := fun w => (Normal a, w).

Definition bind {A B} (m : Eff A) (k : A -> Eff B) : Eff B :=
  fun w =>
    match m w with
    | (Normal a, w') => k a w'
    | (Abrupt e, w') => (Abrupt e, w')
    end.

Definition throw {A} (e : thrown) : Eff A := fun w => (Abrupt e, w).

Definition reads {A} (f : W -> A) : Eff A := fun w => (Normal (f w), w).

Definition modify (f : W -> W) : Eff unit := fun w => (Normal tt, f w).

(** [await p]: the value of a fulfilled promise, or its rejection thrown. *)
Definition await {A} (p : settled A) : Eff A :=
  match p with
  | Fulfilled a => ret a
  | Rejected e => throw e
  end.

(** [if (c) stmt] *)
Definition when (c : bool) (m : Eff unit) : Eff unit :=
  if c then m else ret tt.

(** [try { body } catch (err) { handler err }] *)
Definition try_catch {A} (body : Eff A) (handler : thrown -> Eff A) : Eff A :=
  fun w =>
    match body w with
    | (Normal a, w') => (Normal a, w')
    | (Abrupt e, w') => handler e w'
    end.

(** [try { body } catch (err) { handler err } finally { finalizer }]: the
    finalizer runs on every path; a throw of its own replaces the
    completion of the try/catch part. *)
Definition try_catch_finally {A}
    (body : Eff A) (handler : thrown -> Eff A) (finalizer : Eff unit) : Eff A :=
  fun w =>
    match try_catch body handler w with
    | (r, w') =>
        match finalizer w' with
        | (Normal _, w'') => (r, w'')
        | (Abrupt e, w'') => (Abrupt e, w'')
        end
    end.
End Eff.

(** stdpp's monad notations ([x ← m; k] and [m;; k]) are used for [Eff]. *)
#[global] Instance Eff_ret {W} : MRet (@Eff W) := @ret W.
#[global] Instance Eff_bind {W} : MBind (@Eff W) := fun A B k m => bind m k.

(** ** JavaScript truthiness on [string | null | undefined] *)

(** [!!v] *)
Definition truthy (v : option string) : bool :=
  match v with
  | Some s => negb (String.eqb s "")
  | None => false
  end.

(** [v || d] *)
Definition js_or (v : option string) (d : string) : string :=
  match v with
  | Some s => if truthy v then s else d
  | None => d
  end.

(** [v ?? d] *)
Definition nullish (v : option string) (d : string) : string :=
  match v with
  | Some s => s
  | None => d
  end.

(** Member access [o.f] or [o[i]] on a value that may be [undefined] or
    [null]: a [TypeError] when it is. *)
Definition TypeError : thrown := "TypeError".

Definition member {W A} (o : option A) : @Eff W A :=
  match o with
  | Some a => ret a
  | None => throw TypeError
  end.

(** * The provider loader ([openrouter.ts]) *)

Module OpenRouter.

(** First argument of [new ChatOpenAI(...)]; the key is passed as the
    accessor returned it. *)
Record ChatOpenAIFields : Type := {
  openAIApiKey : option string;
  modelName : string;
  temperature : Q;
}.

(** Second argument of [new ChatOpenAI(...)]; [defaultHeaders] is the
    object literal's entries in source order. *)
Record ClientOptions : Type := {
  baseURL : string;
  defaultHeaders : list (string * string);
}.

(** What the loader does to the outside: constructing a client and
    writing to the logger.  The loader contains no other call. *)
Inductive event : Type :=
| NewChatOpenAI (fields : ChatOpenAIFields) (options : ClientOptions)
| LoggerError (message : string).

(** The three accessors of [../../config] are not part of the reviewed
    sources; their results ([string] or [undefined]) are parameters. *)
Record ProcessConfig : Type := {
  getOpenRouterApiKey : option string;
  getOpenRouterHttpReferer : option string;
  getOpenRouterAppName : option string;
}.

Section Loader.
(** [ChatOpenAI] comes from [@langchain/openai]: an opaque client type
    and a constructor that either yields a client or throws. *)
Context {Client : Type}.
Variable ChatOpenAI : ChatOpenAIFields -> ClientOptions -> completion Client.

Record ChatModel : Type := {
  displayName : string;
  model : Client;
}.

Definition emit (e : event) : @Eff (list event) unit :=
  modify (fun log => (log ++ [e])%list).

Definition new_ChatOpenAI (fields : ChatOpenAIFields) (options : ClientOptions)
  : @Eff (list event) Client :=
  emit (NewChatOpenAI fields options);;
  match ChatOpenAI fields options with
  | Normal c => ret c
  | Abrupt e => throw e
  end.

Definition logger_error (message : string) : @Eff (list event) unit :=
  emit (LoggerError message).

Definition loadOpenRouterChatModels (cfg : ProcessConfig)
  : @Eff (list event) (list (string * ChatModel)) :=
  let openRouterApiKey := getOpenRouterApiKey cfg in
  let httpReferer := getOpenRouterHttpReferer cfg in
  let appName := getOpenRouterAppName cfg in
  if negb (truthy openRouterApiKey) then ret []
  else
    try_catch
      (client ← new_ChatOpenAI
         {| openAIApiKey := openRouterApiKey;
            modelName := "google/gemini-2.0-flash-thinking-exp:free";
            temperature := (7 # 10)%Q |}
         {| baseURL := "https://openrouter.ai/api/v1";
            defaultHeaders :=
              [("HTTP-Referer", js_or httpReferer "");
               ("X-Title", js_or appName "")] |};
       let chatModels :=
         [("gemini-2", {| displayName := "Gemini 2.0"; model := client |})] in
       ret chatModels)
      (fun err =>
         logger_error ("Error loading OpenRouter models: " ++ err);;
         ret []).
End Loader.

Arguments displayName {Client} _.
Arguments model {Client} _.

(** ** Reference values for the properties *)

(** The arguments the loader hands to [new ChatOpenAI] under a process
    configuration: the fixed model identifier and temperature, the
    OpenRouter endpoint, and the two attribution headers. *)
Definition expected_fields (cfg : ProcessConfig) : ChatOpenAIFields :=
  {| openAIApiKey := getOpenRouterApiKey cfg;
     modelName := "google/gemini-2.0-flash-thinking-exp:free";
     temperature := (7 # 10)%Q |}.

Definition expected_options (cfg : ProcessConfig) : ClientOptions :=
  {| baseURL := "https://openrouter.ai/api/v1";
     defaultHeaders :=
       [("HTTP-Referer", default "" (getOpenRouterHttpReferer cfg));
        ("X-Title", default "" (getOpenRouterAppName cfg))] |}.

(** A constructor that never throws and returns its arguments, to read
    back what the loader built. *)
Definition recording_client : Type := ChatOpenAIFields * ClientOptions.
Definition recording_ChatOpenAI (f : ChatOpenAIFields) (o : ClientOptions)
  : completion recording_client := Normal (f, o).

(** A constructor that always throws. *)
Definition failing_ChatOpenAI (f : ChatOpenAIFields) (o : ClientOptions)
  : completion unit := Abrupt "Error: construction failed".

Definition sample_config : ProcessConfig :=
  {| getOpenRouterApiKey := Some "sk-or-v1-0000";
     getOpenRouterHttpReferer := Some "https://perplexica.example";
     getOpenRouterAppName := Some "Perplexica" |}.

End OpenRouter.

(** * The settings dialog ([SettingsDialog.tsx]) *)

Module SettingsDialog.

(** ** Data model *)

Record ModelInfo : Type := {
  name : string;
  displayName : string;
}.

(** A provider mapping [{ [key: string]: ModelInfo[] }]: the object's own
    entries in the order [Object.keys] enumerates them. *)
Definition Providers : Type := list (string * list ModelInfo).

(** [Object.keys(o)] *)
Definition Object_keys (o : Providers) : list string := o.*1.

(** [o[k]]: the value of the property, [undefined] when there is none. *)
Fixpoint obj_get (o : Providers) (k : string) : option (list ModelInfo) :=
  match o with
  | [] => None
  | (k', v) :: o' => if String.eqb k' k then Some v else obj_get o' k
  end.

(** The interface declares both mappings as always present; the code
    guards against their absence ([|| {}], [?.], [&&]), so they are
    optional here. *)
Record SettingsType : Type := {
  chatModelProviders : option Providers;
  embeddingModelProviders : option Providers;
  openaiApiKey : string;
  groqApiKey : string;
  anthropicApiKey : string;
  geminiApiKey : string;
  openrouterApiKey : string;
  openrouterHttpReferer : string;
  openrouterAppName : string;
  ollamaApiUrl : string;
}.

(** The component's [useState] cells. *)
Record State : Type := mkState {
  config : option SettingsType;
  chatModels : Providers;
  embeddingModels : Providers;
  selectedChatModelProvider : option string;
  selectedChatModel : option string;
  selectedEmbeddingModelProvider : option string;
  selectedEmbeddingModel : option string;
  customOpenAIApiKey : string;
  customOpenAIBaseURL : string;
  isLoading : bool;
  isUpdating : bool;
}.

(** The initial values given to [useState]. *)
Definition initial_state : State :=
  {| config := None;
     chatModels := [];
     embeddingModels := [];
     selectedChatModelProvider := None;
     selectedChatModel := None;
     selectedEmbeddingModelProvider := None;
     selectedEmbeddingModel := None;
     customOpenAIApiKey := "";
     customOpenAIBaseURL := "";
     isLoading := false;
     isUpdating := false |}.

(** What the dialog does to the outside, in program order. *)
Inductive event : Type :=
| FetchGet
| FetchPost (body : SettingsType)
| ConsoleError (label : string) (error : thrown)
| SetItem (key value : string)
| SetIsOpen (v : bool)
| Reload.

(** Everything a handler can read or change: the component state, the
    [isOpen] prop owned by the parent (changed through [setIsOpen]),
    [localStorage], and the record of outside effects. *)
Record World : Type := mkWorld {
  state : State;
  isOpen : bool;
  localStorage : gmap string string;
  trace : list event;
}.

Definition with_state (f : State -> State) (w : World) : World :=
  mkWorld (f (state w)) (isOpen w) (localStorage w) (trace w).

Abbreviation M := (@Eff World).

(** ** State setters *)

Definition setConfig (v : option SettingsType) : M unit :=
  modify (with_state (fun s =>
    mkState v (chatModels s) (embeddingModels s)
      (selectedChatModelProvider s) (selectedChatModel s)
      (selectedEmbeddingModelProvider s) (selectedEmbeddingModel s)
      (customOpenAIApiKey s) (customOpenAIBaseURL s) (isLoading s) (isUpdating s))).

Definition setChatModels (v : Providers) : M unit :=
  modify (with_state (fun s =>
    mkState (config s) v (embeddingModels s)
      (selectedChatModelProvider s) (selectedChatModel s)
      (selectedEmbeddingModelProvider s) (selectedEmbeddingModel s)
      (customOpenAIApiKey s) (customOpenAIBaseURL s) (isLoading s) (isUpdating s))).

Definition setEmbeddingModels (v : Providers) : M unit :=
  modify (with_state (fun s =>
    mkState (config s) (chatModels s) v
      (selectedChatModelProvider s) (selectedChatModel s)
      (selectedEmbeddingModelProvider s) (selectedEmbeddingModel s)
      (customOpenAIApiKey s) (customOpenAIBaseURL s) (isLoading s) (isUpdating s))).

Definition setSelectedChatModelProvider (v : option string) : M unit :=
  modify (with_state (fun s =>
    mkState (config s) (chatModels s) (embeddingModels s)
      v (selectedChatModel s)
      (selectedEmbeddingModelProvider s) (selectedEmbeddingModel s)
      (customOpenAIApiKey s) (customOpenAIBaseURL s) (isLoading s) (isUpdating s))).

Definition setSelectedChatModel (v : option string) : M unit :=
  modify (with_state (fun s =>
    mkState (config s) (chatModels s) (embeddingModels s)
      (selectedChatModelProvider s) v
      (selectedEmbeddingModelProvider s) (selectedEmbeddingModel s)
      (customOpenAIApiKey s) (customOpenAIBaseURL s) (isLoading s) (isUpdating s))).

Definition setSelectedEmbeddingModelProvider (v : option string) : M unit :=
  modify (with_state (fun s =>
    mkState (config s) (chatModels s) (embeddingModels s)
      (selectedChatModelProvider s) (selectedChatModel s)
      v (selectedEmbeddingModel s)
      (customOpenAIApiKey s) (customOpenAIBaseURL s) (isLoading s) (isUpdating s))).

Definition setSelectedEmbeddingModel (v : option string) : M unit :=
  modify (with_state (fun s =>
    mkState (config s) (chatModels s) (embeddingModels s)
      (selectedChatModelProvider s) (selectedChatModel s)
      (selectedEmbeddingModelProvider s) v
      (customOpenAIApiKey s) (customOpenAIBaseURL s) (isLoading s) (isUpdating s))).

Definition setCustomOpenAIApiKey (v : string) : M unit :=
  modify (with_state (fun s =>
    mkState (config s) (chatModels s) (embeddingModels s)
      (selectedChatModelProvider s) (selectedChatModel s)
      (selectedEmbeddingModelProvider s) (selectedEmbeddingModel s)
      v (customOpenAIBaseURL s) (isLoading s) (isUpdating s))).

Definition setCustomOpenAIBaseURL (v : string) : M unit :=
  modify (with_state (fun s =>
    mkState (config s) (chatModels s) (embeddingModels s)
      (selectedChatModelProvider s) (selectedChatModel s)
      (selectedEmbeddingModelProvider s) (selectedEmbeddingModel s)
      (customOpenAIApiKey s) v (isLoading s) (isUpdating s))).

Definition setIsLoading (v : bool) : M unit :=
  modify (with_state (fun s =>
    mkState (config s) (chatModels s) (embeddingModels s)
      (selectedChatModelProvider s) (selectedChatModel s)
      (selectedEmbeddingModelProvider s) (selectedEmbeddingModel s)
      (customOpenAIApiKey s) (customOpenAIBaseURL s) v (isUpdating s))).

Definition setIsUpdating (v : bool) : M unit :=
  modify (with_state (fun s =>
    mkState (config s) (chatModels s) (embeddingModels s)
      (selectedChatModelProvider s) (selectedChatModel s)
      (selectedEmbeddingModelProvider s) (selectedEmbeddingModel s)
      (customOpenAIApiKey s) (customOpenAIBaseURL s) (isLoading s) v)).

(** ** Outside effects *)

Definition emit (e : event) : M unit :=
  modify (fun w =>
    mkWorld (state w) (isOpen w) (localStorage w) (trace w ++ [e])%list).

(** [setIsOpen(v)], the parent's setter of the [isOpen] prop *)
Definition setIsOpen (v : bool) : M unit :=
  modify (fun w => mkWorld (state w) v (localStorage w) (trace w));;
  emit (SetIsOpen v).

(** [localStorage.getItem(key)] *)
Definition getItem (key : string) : M (option string) :=
  reads (fun w => localStorage w !! key).

(** [localStorage.setItem(key, value)] *)
Definition setItem (key value : string) : M unit :=
  modify (fun w =>
    mkWorld (state w) (isOpen w) (<[key := value]> (localStorage w)) (trace w));;
  emit (SetItem key value).

(** [console.error(label, error)] *)
Definition console_error (label : string) (error : thrown) : M unit :=
  emit (ConsoleError label error).

(** [window.location.reload()] *)
Definition reload : M unit := emit Reload.

(** What the body of [GET /config] can decode to, as far as the code
    tells the cases apart.  An object is read through the source's cast
    [as SettingsType]; [null] is the one value on which reading a property
    throws; on a falsy primitive ([0], [false], [""]) every property reads
    [undefined]. *)
Inductive Body : Type :=
| BodyObject (data : SettingsType)
| BodyNull
| BodyFalsy.

(** The decoded value as the [config] cell holds it: the code only ever
    tests [config] for truthiness before using it, and [None] stands for
    every falsy value. *)
Definition body_config (data : Body) : option SettingsType :=
  match data with
  | BodyObject d => Some d
  | BodyNull => None
  | BodyFalsy => None
  end.

(** The response of [GET /config]; [json] is the promise [res.json()]
    returns. *)
Record Response : Type := {
  json : settled Body;
}.

(** [await fetch(url + '/config', { headers })] *)
Definition fetch_GET (response : settled Response) : M Response :=
  emit FetchGet;; await response.

(** [data.<property>] on the decoded body *)
Definition read_property {A : Type} (data : Body)
    (property : SettingsType -> option A) : M (option A) :=
  match data with
  | BodyObject d => ret (property d)
  | BodyNull => throw TypeError
  | BodyFalsy => ret None
  end.

(** [await fetch(url + '/config', { method: 'POST', headers,
    body: JSON.stringify(config) })]; nothing of the response is read. *)
Definition fetch_POST (body : SettingsType) (response : settled unit) : M unit :=
  emit (FetchPost body);; await response.

(** [if (v) k(v)] for [v : string | null] *)
Definition when_truthy (v : option string) (k : string -> M unit) : M unit :=
  match v with
  | Some s => when (truthy v) (k s)
  | None => ret tt
  end.

(** ** [fetchConfig] and the open effect *)

(** [keys.length > 0 ? keys[0] : ''] *)
Definition first_or_empty (keys : list string) : string :=
  if bool_decide (0 < length keys) then default "" (keys !! 0%nat) else "".

(** [providers?.[provider]?.[0]?.name ?? ''] *)
Definition first_model_name (providers : option Providers) (provider : string)
  : string :=
  nullish
    (o ← providers;
     models ← obj_get o provider;
     first ← models !! 0%nat;
     Some (name first))
    "".

Definition fetchConfig (response : settled Response) : M unit :=
  setIsLoading true;;
  try_catch_finally
    (res ← fetch_GET response;
     data ← await (json res);
     setConfig (body_config data);;
     data_chatModelProviders ← read_property data chatModelProviders;
     data_embeddingModelProviders ← read_property data embeddingModelProviders;
     let chatModelProvidersKeys :=
       Object_keys (default [] data_chatModelProviders) in
     let embeddingModelProvidersKeys :=
       Object_keys (default [] data_embeddingModelProviders) in
     let defaultChatModelProvider := first_or_empty chatModelProvidersKeys in
     let defaultEmbeddingModelProvider :=
       first_or_empty embeddingModelProvidersKeys in
     stored ← getItem "chatModelProvider";
     let chatModelProvider := js_or stored defaultChatModelProvider in
     stored ← getItem "chatModel";
     let chatModel :=
       js_or stored
         (first_model_name data_chatModelProviders chatModelProvider) in
     stored ← getItem "embeddingModelProvider";
     let embeddingModelProvider := js_or stored defaultEmbeddingModelProvider in
     stored ← getItem "embeddingModel";
     let embeddingModel :=
       js_or stored
         (first_model_name data_embeddingModelProviders embeddingModelProvider) in
     setSelectedChatModelProvider (Some chatModelProvider);;
     setSelectedChatModel (Some chatModel);;
     setSelectedEmbeddingModelProvider (Some embeddingModelProvider);;
     setSelectedEmbeddingModel (Some embeddingModel);;
     stored ← getItem "openAIApiKey";
     setCustomOpenAIApiKey (js_or stored "");;
     stored ← getItem "openAIBaseURL";
     setCustomOpenAIBaseURL (js_or stored "");;
     setChatModels (default [] data_chatModelProviders);;
     setEmbeddingModels (default [] data_embeddingModelProviders))
    (fun error => console_error "Error fetching config:" error)
    (setIsLoading false).

(** The part of [fetchConfig] that runs before its first [await]
    suspends it: the state the dialog shows while the request is in
    flight. *)
Definition fetchConfig_until_await : M unit :=
  setIsLoading true;; emit FetchGet.

(** [useEffect(() => { if (isOpen) { ...; fetchConfig(); } }, [isOpen])] *)
Definition open_effect (response : settled Response) : M unit :=
  opened ← reads isOpen;
  when opened (fetchConfig response).

(** ** [handleSubmit] *)

(** The handler is a closure over the state of the render it belongs
    to: [s] below.  The values it reads after the [await] are those of
    that render. *)
Definition handleSubmit (response : settled unit) : M unit :=
  s ← reads state;
  match config s with
  | None => ret tt
  | Some config =>
      setIsUpdating true;;
      try_catch_finally
        (fetch_POST config response;;
         when_truthy (selectedChatModelProvider s)
           (setItem "chatModelProvider");;
         when_truthy (selectedChatModel s)
           (setItem "chatModel");;
         when_truthy (selectedEmbeddingModelProvider s)
           (setItem "embeddingModelProvider");;
         when_truthy (selectedEmbeddingModel s)
           (setItem "embeddingModel");;
         setItem "openAIApiKey" (customOpenAIApiKey s);;
         setItem "openAIBaseURL" (customOpenAIBaseURL s))
        (fun error => console_error "Error updating config:" error)
        (setIsUpdating false;;
         setIsOpen false;;
         reload)
  end.

(** ** The provider selectors *)

(** [onChange] of the chat provider [Select] (lines 217-227); [value] is
    [e.target.value]. *)
Definition onChatProviderChange (value : string) : M unit :=
  s ← reads state;
  setSelectedChatModelProvider (Some value);;
  if String.eqb value "custom_openai" then
    setSelectedChatModel (Some "")
  else
    config ← member (config s);
    providers ← member (chatModelProviders config);
    models ← member (obj_get providers value);
    first ← member (models !! 0%nat);
    setSelectedChatModel (Some (name first)).

(** [onChange] of the embedding provider [Select] (lines 333-339). *)
Definition onEmbeddingProviderChange (value : string) : M unit :=
  s ← reads state;
  setSelectedEmbeddingModelProvider (Some value);;
  config ← member (config s);
  providers ← member (embeddingModelProviders config);
  models ← member (obj_get providers value);
  first ← member (models !! 0%nat);
  setSelectedEmbeddingModel (Some (name first)).

(** [options] of a provider [Select]: the values an [onChange] of that
    selector can carry. *)
Definition provider_options (providers : option Providers) : list string :=
  Object_keys (default [] providers).

(** ** What is rendered *)

(** The form ([config && !isLoading], line 202) inside the open dialog. *)
Definition form_shown (w : World) : bool :=
  isOpen w && bool_decide (is_Some (config (state w)))
           && negb (isLoading (state w)).

(** The spinner ([isLoading], line 522). *)
Definition spinner_shown (w : World) : bool :=
  isOpen w && isLoading (state w).

(** ** Reference definitions, after the specification's wording *)

(** "the locally stored value if present, else" the fallback *)
Definition stored_else (stored : option string) (fallback : string) : string :=
  match stored with
  | Some v => v
  | None => fallback
  end.

(** The same with a stored empty string counting as absent. *)
Definition stored_nonempty_else (stored : option string) (fallback : string)
  : string :=
  match stored with
  | Some v => if decide (v = "") then fallback else v
  | None => fallback
  end.

(** "first key of the corresponding provider mapping, else empty" *)
Definition first_key (providers : option Providers) : string :=
  match providers with
  | Some ((k, _) :: _) => k
  | _ => ""
  end.

(** "first model of the provider's list", when the provider is in the
    mapping and its list has a first model *)
Definition first_model (providers : option Providers) (provider : string)
  : option string :=
  match providers with
  | Some o =>
      match obj_get o provider with
      | Some (m :: _) => Some (name m)
      | _ => None
      end
  | None => None
  end.

(** The [localStorage] entry under a key after the guarded write
    [if (selection) localStorage.setItem(key, selection)]: the selection
    when it is non-empty, the previous entry otherwise. *)
Definition written_or_kept (selection previous : option string) : option string :=
  match selection with
  | Some v => if decide (v = "") then previous else Some v
  | None => previous
  end.

(** The [setItem] calls of that guarded write: one or none. *)
Definition writes (key : string) (selection : option string) : list event :=
  match selection with
  | Some v => if decide (v = "") then [] else [SetItem key v]
  | None => []
  end.

(** The store after that guarded write. *)
Definition store (key : string) (selection : option string)
    (ls : gmap string string) : gmap string string :=
  match selection with
  | Some v => if decide (v = "") then ls else <[key := v]> ls
  | None => ls
  end.

(** The component state of a render with the updating flag down, all else equal. *)
Definition state_after_save (s : State) : State :=
  mkState (config s) (chatModels s) (embeddingModels s)
    (selectedChatModelProvider s) (selectedChatModel s)
    (selectedEmbeddingModelProvider s) (selectedEmbeddingModel s)
    (customOpenAIApiKey s) (customOpenAIBaseURL s) (isLoading s) false.

(** The world with the chat selection replaced, all else equal. *)
Definition with_chat_selection (provider model : option string) (w : World)
  : World :=
  with_state (fun s =>
    mkState (config s) (chatModels s) (embeddingModels s)
      provider model
      (selectedEmbeddingModelProvider s) (selectedEmbeddingModel s)
      (customOpenAIApiKey s) (customOpenAIBaseURL s) (isLoading s) (isUpdating s)) w.

(** The world with the embedding selection replaced, all else equal. *)
Definition with_embedding_selection (provider model : option string) (w : World)
  : World :=
  with_state (fun s =>
    mkState (config s) (chatModels s) (embeddingModels s)
      (selectedChatModelProvider s) (selectedChatModel s)
      provider model
      (customOpenAIApiKey s) (customOpenAIBaseURL s) (isLoading s) (isUpdating s)) w.

(** The list a provider value selects in a mapping, if any. *)
Definition models_of (providers : option Providers) (provider : string)
  : option (list ModelInfo) :=
  match providers with
  | Some o => obj_get o provider
  | None => None
  end.

(** The six [localStorage] keys of the dialog. *)
Definition preference_keys : list string :=
  ["chatModelProvider"; "chatModel"; "embeddingModelProvider";
   "embeddingModel"; "openAIApiKey"; "openAIBaseURL"].

(** ** Sample inputs *)

(** A document with the given provider mappings and no credentials. *)
Definition document (chat embedding : option Providers) : SettingsType :=
  {| chatModelProviders := chat;
     embeddingModelProviders := embedding;
     openaiApiKey := "";
     groqApiKey := "";
     anthropicApiKey := "";
     geminiApiKey := "";
     openrouterApiKey := "";
     openrouterHttpReferer := "";
     openrouterAppName := "";
     ollamaApiUrl := "" |}.

(** [{a: [{name: "x", displayName: "X"}], b: []}] *)
Definition providers_a_b : Providers :=
  [("a", [{| name := "x"; displayName := "X" |}]); ("b", [])].

Definition sample_document : SettingsType :=
  document (Some providers_a_b) (Some providers_a_b).

(** An embedding mapping that offers the custom-endpoint value. *)
Definition custom_embedding_document : SettingsType :=
  document (Some providers_a_b)
    (Some [("openai", [{| name := "small"; displayName := "Small" |}]);
           ("custom_openai", [{| name := "e"; displayName := "E" |}])]).

(** The same with nothing to choose under that value. *)
Definition custom_empty_document : SettingsType :=
  document (Some providers_a_b) (Some [("custom_openai", [])]).

(** The dialog just opened for the first time, nothing stored. *)
Definition fresh_world : World := mkWorld initial_state true ∅ [].

Definition with_storage (ls : gmap string string) (w : World) : World :=
  mkWorld (state w) (isOpen w) ls (trace w).

(** A successful [GET /config] delivering the document [data]. *)
Definition delivers (data : SettingsType) : settled Response :=
  Fulfilled {| json := Fulfilled (BodyObject data) |}.

(** The dialog in its Ready phase over [data], as the first successful
    fetch leaves it. *)
Definition ready_world (data : SettingsType) : World :=
  (fetchConfig (delivers data) fresh_world).2.

(** ** The rest of the component: field inputs, pickers, closing *)

(** The scalar fields of the document, one text input each
    (lines 392-519). *)
Inductive field : Type :=
| OpenaiApiKey
| OllamaApiUrl
| GroqApiKey
| AnthropicApiKey
| GeminiApiKey
| OpenrouterApiKey
| OpenrouterHttpReferer
| OpenrouterAppName.

#[global] Instance field_eq_dec : EqDecision field.
Proof. solve_decision. Defined.

(** [config.<field>] *)
Definition get_field (f : field) (c : SettingsType) : string :=
  match f with
  | OpenaiApiKey => openaiApiKey c
  | OllamaApiUrl => ollamaApiUrl c
  | GroqApiKey => groqApiKey c
  | AnthropicApiKey => anthropicApiKey c
  | GeminiApiKey => geminiApiKey c
  | OpenrouterApiKey => openrouterApiKey c
  | OpenrouterHttpReferer => openrouterHttpReferer c
  | OpenrouterAppName => openrouterAppName c
  end.

(** [{ ...config, <field>: v }] *)
Definition set_field (f : field) (v : string) (c : SettingsType) : SettingsType :=
  {| chatModelProviders := chatModelProviders c;
     embeddingModelProviders := embeddingModelProviders c;
     openaiApiKey := if decide (f = OpenaiApiKey) then v else openaiApiKey c;
     groqApiKey := if decide (f = GroqApiKey) then v else groqApiKey c;
     anthropicApiKey := if decide (f = AnthropicApiKey) then v else anthropicApiKey c;
     geminiApiKey := if decide (f = GeminiApiKey) then v else geminiApiKey c;
     openrouterApiKey :=
       if decide (f = OpenrouterApiKey) then v else openrouterApiKey c;
     openrouterHttpReferer :=
       if decide (f = OpenrouterHttpReferer) then v else openrouterHttpReferer c;
     openrouterAppName :=
       if decide (f = OpenrouterAppName) then v else openrouterAppName c;
     ollamaApiUrl := if decide (f = OllamaApiUrl) then v else ollamaApiUrl c |}.

(** [onChange] of a field's input:
    [setConfig({ ...config, <field>: e.target.value })].  The input exists
    only inside [config && ...] (line 202), so the [config] of its closure
    is a document. *)
Definition onFieldChange (config : SettingsType) (f : field) (v : string)
  : M unit :=
  setConfig (Some (set_field f v config)).

(** The user typing into the inputs, one event per render: each event
    runs the handler of the render of the current state; with no document
    there is no input to type into. *)
Fixpoint type_into_fields (edits : list (field * string)) : M unit :=
  match edits with
  | [] => ret tt
  | (f, v) :: rest =>
      s ← reads state;
      match config s with
      | Some c => onFieldChange c f v
      | None => ret tt
      end;;
      type_into_fields rest
  end.

(** [onClose] of the [Dialog] (line 174) *)
Definition onClose : M unit := setIsOpen false.

(** An entry of a [Select]'s [options]; an absent [disabled] is [false]. *)
Record SelectOption : Type := {
  value : string;
  label : string;
  disabled : bool;
}.

(** What [mapping[key]] can be for a provider mapping, an object whose
    prototype is [Object.prototype]: the list under an own key, a method
    it inherits (of which the code reads [length], the number of declared
    parameters, and [map], which a function does not have), the prototype
    object itself (under [__proto__]; it has neither [length] nor [map]),
    or [undefined]. *)
Inductive looked_up : Type :=
| Models (models : list ModelInfo)
| PrototypeFunction (parameters : nat)
| PrototypeObject
| NotFound.

(** The members of [Object.prototype] (ECMAScript, with its Annex B for
    browsers) and the [length] of each method. *)
Definition Object_prototype : list (string * looked_up) :=
  [("constructor", PrototypeFunction 1);
   ("hasOwnProperty", PrototypeFunction 1);
   ("isPrototypeOf", PrototypeFunction 1);
   ("propertyIsEnumerable", PrototypeFunction 1);
   ("toLocaleString", PrototypeFunction 0);
   ("toString", PrototypeFunction 0);
   ("valueOf", PrototypeFunction 0);
   ("__defineGetter__", PrototypeFunction 2);
   ("__defineSetter__", PrototypeFunction 2);
   ("__lookupGetter__", PrototypeFunction 1);
   ("__lookupSetter__", PrototypeFunction 1);
   ("__proto__", PrototypeObject)].

Fixpoint prototype_member (members : list (string * looked_up)) (key : string)
  : looked_up :=
  match members with
  | [] => NotFound
  | (k, v) :: members' =>
      if String.eqb k key then v else prototype_member members' key
  end.

(** [mapping[key]]: the own property when there is one, else what the
    prototype has under that name. *)
Definition lookup_member (mapping : Providers) (key : string) : looked_up :=
  match obj_get mapping key with
  | Some models => Models models
  | None => prototype_member Object_prototype key
  end.

(** [v ? ... : ...]: everything but [undefined] is truthy. *)
Definition found (v : looked_up) : bool :=
  match v with
  | NotFound => false
  | _ => true
  end.

(** [v.length > 0]; with no [length] the comparison is false. *)
Definition has_length (v : looked_up) : bool :=
  match v with
  | Models models => bool_decide (0 < length models)
  | PrototypeFunction parameters => bool_decide (0 < parameters)
  | PrototypeObject => false
  | NotFound => false
  end.

(** [v.map(f)]: calling a [map] that is not there is a [TypeError]. *)
Definition map_member {B : Type} (v : looked_up) (f : ModelInfo -> B)
  : completion (list B) :=
  match v with
  | Models models => Normal (map f models)
  | _ => Abrupt TypeError
  end.

(** [options] of the chat model picker (lines 250-277), over
    [config.chatModelProviders]; indexing an absent mapping is a
    [TypeError]. *)
Definition chatModelOptions (providers : option Providers)
    (selectedChatModelProvider : string) : completion (list SelectOption) :=
  match providers with
  | None => Abrupt TypeError
  | Some o =>
      let chatModelProvider := lookup_member o selectedChatModelProvider in
      if found chatModelProvider then
        if has_length chatModelProvider then
          map_member chatModelProvider
            (fun model =>
               {| value := name model;
                  label := displayName model;
                  disabled := false |})
        else
          Normal
            [{| value := ""; label := "No models available"; disabled := true |}]
      else
        Normal
          [{| value := "";
              label := "Invalid provider, please check backend logs";
              disabled := true |}]
  end.

(** [options] of the embedding model picker (lines 361-388) *)
Definition embeddingModelOptions (providers : option Providers)
    (selectedEmbeddingModelProvider : string) : completion (list SelectOption) :=
  match providers with
  | None => Abrupt TypeError
  | Some o =>
      let embeddingModelProvider :=
        lookup_member o selectedEmbeddingModelProvider in
      if found embeddingModelProvider then
        if has_length embeddingModelProvider then
          map_member embeddingModelProvider
            (fun model =>
               {| label := displayName model;
                  value := name model;
                  disabled := false |})
        else
          Normal
            [{| label := "No embedding models available";
                value := "";
                disabled := true |}]
      else
        Normal
          [{| label := "Invalid provider, please check backend logs";
              value := "";
              disabled := true |}]
  end.

(** [config && !isLoading] (line 202): the form's elements are built. *)
Definition form_rendered (s : State) : bool :=
  bool_decide (is_Some (config s)) && negb (isLoading s).

(** [selectedChatModelProvider && selectedChatModelProvider !=
    'custom_openai'] (lines 239-240) *)
Definition chat_model_picker_shown (s : State) : bool :=
  truthy (selectedChatModelProvider s)
  && negb (bool_decide (selectedChatModelProvider s = Some "custom_openai")).

(** [selectedChatModelProvider && selectedChatModelProvider ===
    'custom_openai'] (lines 281-282): the three free-text inputs. *)
Definition custom_fields_shown (s : State) : bool :=
  truthy (selectedChatModelProvider s)
  && bool_decide (selectedChatModelProvider s = Some "custom_openai").

(** [selectedEmbeddingModelProvider] (line 351) *)
Definition embedding_model_picker_shown (s : State) : bool :=
  truthy (selectedEmbeddingModelProvider s).

(** The options the chat model picker is built with in a render of [s]:
    [None] when the picker is not part of the render, a [TypeError] when
    building them throws. *)
Definition chat_model_picker (s : State) : completion (option (list SelectOption)) :=
  match config s with
  | Some c =>
      if form_rendered s && chat_model_picker_shown s then
        match chatModelOptions (chatModelProviders c)
                (nullish (selectedChatModelProvider s) "") with
        | Normal options => Normal (Some options)
        | Abrupt e => Abrupt e
        end
      else Normal None
  | None => Normal None
  end.

Definition embedding_model_picker (s : State)
  : completion (option (list SelectOption)) :=
  match config s with
  | Some c =>
      if form_rendered s && embedding_model_picker_shown s then
        match embeddingModelOptions (embeddingModelProviders c)
                (nullish (selectedEmbeddingModelProvider s) "") with
        | Normal options => Normal (Some options)
        | Abrupt e => Abrupt e
        end
      else Normal None
  | None => Normal None
  end.

(** ** Further reference definitions *)

(** The value typed last into a field, if any was. *)
Fixpoint last_edit (f : field) (edits : list (field * string)) : option string :=
  match edits with
  | [] => None
  | (g, v) :: rest =>
      match last_edit f rest with
      | Some v' => Some v'
      | None => if decide (g = f) then Some v else None
      end
  end.

(** The world with the document replaced, all else equal. *)
Definition with_config (c : option SettingsType) (w : World) : World :=
  with_state (fun s =>
    mkState c (chatModels s) (embeddingModels s)
      (selectedChatModelProvider s) (selectedChatModel s)
      (selectedEmbeddingModelProvider s) (selectedEmbeddingModel s)
      (customOpenAIApiKey s) (customOpenAIBaseURL s) (isLoading s) (isUpdating s)) w.

(** A non-empty selection is found again. *)
Definition restored (before after : option string) : Prop :=
  forall v, before = Some v -> v ≠ "" -> after = Some v.

(** The model names an enabled option of a picker offers. *)
Definition offered (options : list SelectOption) (n : string) : Prop :=
  exists x, x ∈ options /\ disabled x = false /\ value x = n.

(** The model names a provider value lists in a mapping. *)
Definition listed (providers : Providers) (provider n : string) : Prop :=
  exists models m,
    obj_get providers provider = Some models /\ m ∈ models /\ name m = n.

(** A picker over [mapping] cannot build its options for [provider]: the
    name is not a key of the mapping and is that of a method of
    [Object.prototype] declaring at least one parameter, so the code goes
    on to call a [map] the method does not have. *)
Definition names_prototype_method (mapping : Providers) (provider : string)
  : Prop :=
  obj_get mapping provider = None
  /\ exists parameters,
       prototype_member Object_prototype provider
         = PrototypeFunction parameters
       /\ 0 < parameters.

(** A document whose chat mapping offers two providers with models and
    the custom endpoint, and whose embedding mapping offers one provider
    and the custom endpoint. *)
Definition custom_chat_document : SettingsType :=
  document
    (Some [("a", [{| name := "x"; displayName := "X" |}]);
           ("openai", [{| name := "gpt"; displayName := "GPT" |};
                       {| name := "mini"; displayName := "Mini" |}]);
           ("custom_openai", [])])
    (Some [("openai", [{| name := "small"; displayName := "Small" |}]);
           ("custom_openai", [{| name := "e"; displayName := "E" |}])]).

(** A document offering the custom endpoint only. *)
Definition only_custom_document : SettingsType :=
  document (Some [("custom_openai", [])]) None.

(** The page after [window.location.reload()]: a new component instance,
    the dialog closed, [localStorage] kept. *)
Definition reloaded (w : World) : World :=
  mkWorld initial_state false (localStorage w) [].

End SettingsDialog.

(** * Properties of the provider loader *)

Module OpenRouterFacts.
Import OpenRouter.

Lemma js_or_empty (v : option string) : js_or v "" = default "" v.
Proof.
  destruct v as [s|]; [|reflexivity].
  unfold js_or, truthy. destruct (String.eqb_spec s ""); simpl; congruence.
Qed.

Lemma truthy_nonempty (s : string) : s ≠ "" -> truthy (Some s) = true.
Proof.
  intros Hs. unfold truthy. destruct (String.eqb_spec s ""); [contradiction | reflexivity].
Qed.

Section LoaderFacts.
Context {Client : Type}.
Variable ChatOpenAI : ChatOpenAIFields -> ClientOptions -> completion Client.

(** The loader with its [if] already decided for a configured key. *)
Lemma loader_with_key (cfg : ProcessConfig) (key : string) (log : list event) :
  getOpenRouterApiKey cfg = Some key -> key ≠ "" ->
  loadOpenRouterChatModels ChatOpenAI cfg log =
    match ChatOpenAI (expected_fields cfg) (expected_options cfg) with
    | Normal client =>
        (Normal [("gemini-2", {| displayName := "Gemini 2.0"; model := client |})],
         log ++ [NewChatOpenAI (expected_fields cfg) (expected_options cfg)])%list
    | Abrupt e =>
        (Normal [],
         log ++ [NewChatOpenAI (expected_fields cfg) (expected_options cfg);
                 LoggerError ("Error loading OpenRouter models: " ++ e)])%list
    end.
Proof.
  intros Hkey Hne. unfold loadOpenRouterChatModels.
  rewrite Hkey, (truthy_nonempty key Hne). simpl negb. cbv iota.
  rewrite <- Hkey, !js_or_empty.
  change {| openAIApiKey := getOpenRouterApiKey cfg;
            modelName := "google/gemini-2.0-flash-thinking-exp:free";
            temperature := (7 # 10)%Q |} with (expected_fields cfg).
  change {| baseURL := "https://openrouter.ai/api/v1";
            defaultHeaders :=
              [("HTTP-Referer", default "" (getOpenRouterHttpReferer cfg));
               ("X-Title", default "" (getOpenRouterAppName cfg))] |}
    with (expected_options cfg).
  unfold try_catch, new_ChatOpenAI, logger_error, emit, mbind, Eff_bind, bind, modify.
  destruct (ChatOpenAI (expected_fields cfg) (expected_options cfg)) as [client|e];
    simpl; [reflexivity|].
  by rewrite <- app_assoc.
Qed.

(** The loader with its [if] decided the other way. *)
Lemma loader_falsy_key (cfg : ProcessConfig) (log : list event) :
  truthy (getOpenRouterApiKey cfg) = false ->
  loadOpenRouterChatModels ChatOpenAI cfg log = (Normal [], log).
Proof.
  intros Hkey. unfold loadOpenRouterChatModels. rewrite Hkey. reflexivity.
Qed.

(** Whatever the constructor does, the loader completes normally. *)
Lemma loader_completes_normally (cfg : ProcessConfig) (log : list event) :
  exists models, (loadOpenRouterChatModels ChatOpenAI cfg log).1 = Normal models.
Proof.
  destruct (truthy (getOpenRouterApiKey cfg)) eqn:Hkey.
  - destruct (getOpenRouterApiKey cfg) as [k|] eqn:Hk; [|discriminate Hkey].
    assert (k ≠ "") as Hne by (intros ->; discriminate Hkey).
    rewrite (loader_with_key cfg k log Hk Hne).
    destruct (ChatOpenAI _ _); eexists; reflexivity.
  - rewrite (loader_falsy_key cfg log Hkey). eexists; reflexivity.
Qed.
End LoaderFacts.

(** C5, as the code has it: with a non-empty API key and a client
    construction that does not throw, the loader returns exactly one entry,
    keyed ["gemini-2"]; its display name is the constant ["Gemini 2.0"]
    (not a configured value); its client is the one constructed, once, for
    the model ["google/gemini-2.0-flash-thinking-exp:free"] at temperature
    0.7, with the headers [HTTP-Referer] and [X-Title] carrying the
    configured referer and application name (the empty string when unset). *)
Theorem loader_single_entry {Client : Type}
    (ChatOpenAI : ChatOpenAIFields -> ClientOptions -> completion Client)
    (cfg : ProcessConfig) (key : string) (client : Client) (log : list event) :
  getOpenRouterApiKey cfg = Some key -> key ≠ "" ->
  ChatOpenAI
    {| openAIApiKey := Some key;
       modelName := "google/gemini-2.0-flash-thinking-exp:free";
       temperature := (7 # 10)%Q |}
    {| baseURL := "https://openrouter.ai/api/v1";
       defaultHeaders :=
         [("HTTP-Referer", default "" (getOpenRouterHttpReferer cfg));
          ("X-Title", default "" (getOpenRouterAppName cfg))] |}
    = Normal client ->
  loadOpenRouterChatModels ChatOpenAI cfg log =
    (Normal [("gemini-2", {| displayName := "Gemini 2.0"; model := client |})],
     log ++ [NewChatOpenAI
               {| openAIApiKey := Some key;
                  modelName := "google/gemini-2.0-flash-thinking-exp:free";
                  temperature := (7 # 10)%Q |}
               {| baseURL := "https://openrouter.ai/api/v1";
                  defaultHeaders :=
                    [("HTTP-Referer", default "" (getOpenRouterHttpReferer cfg));
                     ("X-Title", default "" (getOpenRouterAppName cfg))] |}])%list.
Proof.
  intros Hkey Hne Hnew.
  rewrite (loader_with_key ChatOpenAI cfg key log Hkey Hne).
  unfold expected_fields, expected_options. rewrite Hkey, Hnew. reflexivity.
Qed.

Lemma loader_single_entry_witness :
  loadOpenRouterChatModels recording_ChatOpenAI sample_config [] =
    (Normal [("gemini-2",
              {| displayName := "Gemini 2.0";
                 model := (expected_fields sample_config,
                           expected_options sample_config) |})],
     [NewChatOpenAI (expected_fields sample_config) (expected_options sample_config)]).
Proof.
  apply (loader_single_entry recording_ChatOpenAI sample_config "sk-or-v1-0000"
           (expected_fields sample_config, expected_options sample_config) []).
  - reflexivity.
  - discriminate.
  - reflexivity.
Defined.

(** C5, as the claim states it, fails: with every value configured and a
    constructor that succeeds, the single entry's display name is neither
    of the configured attribution values. *)
Lemma loader_display_name_not_configured :
  ~ (exists entry,
       (loadOpenRouterChatModels recording_ChatOpenAI sample_config []).1
         = Normal [("gemini-2", entry)]
       /\ (Some (displayName entry) = getOpenRouterAppName sample_config
           \/ Some (displayName entry) = getOpenRouterHttpReferer sample_config)).
Proof.
  intros (entry & Hrun & Hname).
  vm_compute in Hrun. injection Hrun as <-.
  destruct Hname as [H|H]; vm_compute in H; discriminate H.
Qed.

(** C6: with the API key absent ([undefined] or the empty string) the
    loader returns the empty mapping at once: it completes normally and
    leaves the record of outside effects as it found it (no client
    constructed, nothing logged), whatever the constructor and the two
    attribution settings are. *)
Theorem loader_without_key {Client : Type}
    (ChatOpenAI : ChatOpenAIFields -> ClientOptions -> completion Client)
    (cfg : ProcessConfig) (log : list event) :
  getOpenRouterApiKey cfg = None \/ getOpenRouterApiKey cfg = Some "" ->
  loadOpenRouterChatModels ChatOpenAI cfg log = (Normal [], log).
Proof.
  intros Hkey. apply loader_falsy_key.
  destruct Hkey as [-> | ->]; reflexivity.
Qed.

Lemma loader_without_key_witness :
  loadOpenRouterChatModels failing_ChatOpenAI
    {| getOpenRouterApiKey := Some "";
       getOpenRouterHttpReferer := Some "https://perplexica.example";
       getOpenRouterAppName := None |} []
  = (Normal [], []).
Proof.
  apply (loader_without_key failing_ChatOpenAI). right. reflexivity.
Defined.

(** C7: when the key is configured and the client construction throws
    [e], the loader completes normally with the empty mapping, having
    attempted the construction once and logged
    ["Error loading OpenRouter models: " ++ e]; and on no input at all
    does a run of the loader complete abruptly. *)
Theorem loader_construction_failure {Client : Type}
    (ChatOpenAI : ChatOpenAIFields -> ClientOptions -> completion Client)
    (cfg : ProcessConfig) (key : string) (e : thrown) (log : list event) :
  getOpenRouterApiKey cfg = Some key -> key ≠ "" ->
  ChatOpenAI (expected_fields cfg) (expected_options cfg) = Abrupt e ->
  loadOpenRouterChatModels ChatOpenAI cfg log =
    (Normal [],
     log ++ [NewChatOpenAI (expected_fields cfg) (expected_options cfg);
             LoggerError ("Error loading OpenRouter models: " ++ e)])%list
  /\ (forall (Client' : Type)
             (ChatOpenAI' : ChatOpenAIFields -> ClientOptions -> completion Client')
             (cfg' : ProcessConfig) (log' : list event),
        exists models,
          (loadOpenRouterChatModels ChatOpenAI' cfg' log').1 = Normal models).
Proof.
  intros Hkey Hne Hnew. split.
  - rewrite (loader_with_key ChatOpenAI cfg key log Hkey Hne), Hnew. reflexivity.
  - intros Client' ChatOpenAI' cfg' log'. apply loader_completes_normally.
Qed.

Lemma loader_construction_failure_witness :
  loadOpenRouterChatModels failing_ChatOpenAI sample_config [] =
    (Normal [],
     [NewChatOpenAI (expected_fields sample_config) (expected_options sample_config);
      LoggerError "Error loading OpenRouter models: Error: construction failed"]).
Proof.
  apply (loader_construction_failure failing_ChatOpenAI sample_config
           "sk-or-v1-0000" "Error: construction failed" []).
  - reflexivity.
  - discriminate.
  - reflexivity.
Defined.
End OpenRouterFacts.

(** * Properties of the settings dialog *)

Module SettingsDialogFacts.
Import SettingsDialog.

(** Runs the straight-line part of a handler: the monad, the setters and
    the record projections; guards on strings are left to lemmas. *)
Ltac run_dialog :=
  cbv [try_catch_finally try_catch mbind Eff_bind bind fetch_GET fetch_POST
       await json ret throw emit modify reads getItem setItem console_error
       reload setIsOpen when member read_property body_config
       setConfig setIsLoading setIsUpdating setSelectedChatModelProvider
       setSelectedChatModel setSelectedEmbeddingModelProvider
       setSelectedEmbeddingModel setCustomOpenAIApiKey setCustomOpenAIBaseURL
       setChatModels setEmbeddingModels with_state
       state isOpen localStorage trace config chatModels embeddingModels
       selectedChatModelProvider selectedChatModel
       selectedEmbeddingModelProvider selectedEmbeddingModel
       customOpenAIApiKey customOpenAIBaseURL isLoading isUpdating].

(** One step of a sequence whose first statement completes normally. *)
Lemma bind_step {W A B : Type} (m : @Eff W A) (k : A -> @Eff W B)
    (w w' : W) (a : A) :
  m w = (Normal a, w') -> (m ≫= k) w = k a w'.
Proof.
  intros Hm. unfold mbind, Eff_bind, bind. by rewrite Hm.
Qed.

(** ** The JavaScript idioms against the reference definitions *)

Lemma truthy_Some (v : string) : truthy (Some v) = bool_decide (v ≠ "").
Proof.
  unfold truthy. destruct (String.eqb_spec v "") as [->|Hne]; simpl.
  - reflexivity.
  - symmetry. by apply bool_decide_eq_true.
Qed.

Lemma js_or_stored (stored : option string) (fallback : string) :
  js_or stored fallback = stored_nonempty_else stored fallback.
Proof.
  destruct stored as [v|]; [|reflexivity].
  unfold js_or, stored_nonempty_else. rewrite truthy_Some.
  destruct (decide (v = "")) as [->|Hne]; [reflexivity|].
  by rewrite bool_decide_eq_true_2.
Qed.

Lemma first_or_empty_keys (providers : option Providers) :
  first_or_empty (Object_keys (default [] providers)) = first_key providers.
Proof.
  destruct providers as [[|[k models] o]|]; reflexivity.
Qed.

Lemma first_model_name_spec (providers : option Providers) (provider : string) :
  first_model_name providers provider = default "" (first_model providers provider).
Proof.
  unfold first_model_name, first_model.
  destruct providers as [o|]; simpl; [|reflexivity].
  destruct (obj_get o provider) as [[|m models]|]; reflexivity.
Qed.

(** ** [fetchConfig] *)

(** The world a successful fetch leaves. *)
Lemma fetchConfig_delivers (data : SettingsType) (w : World) :
  fetchConfig (delivers data) w =
    (Normal tt,
     let ls := localStorage w in
     let chatModelProvider :=
       js_or (ls !! "chatModelProvider")
         (first_or_empty (Object_keys (default [] (chatModelProviders data)))) in
     let embeddingModelProvider :=
       js_or (ls !! "embeddingModelProvider")
         (first_or_empty (Object_keys (default [] (embeddingModelProviders data)))) in
     mkWorld
       (mkState (Some data)
          (default [] (chatModelProviders data))
          (default [] (embeddingModelProviders data))
          (Some chatModelProvider)
          (Some (js_or (ls !! "chatModel")
                   (first_model_name (chatModelProviders data) chatModelProvider)))
          (Some embeddingModelProvider)
          (Some (js_or (ls !! "embeddingModel")
                   (first_model_name (embeddingModelProviders data)
                      embeddingModelProvider)))
          (js_or (ls !! "openAIApiKey") "")
          (js_or (ls !! "openAIBaseURL") "")
          false
          (isUpdating (state w)))
       (isOpen w) ls (trace w ++ [FetchGet])).
Proof.
  destruct w as [s o ls tr]. unfold fetchConfig, delivers. run_dialog. reflexivity.
Qed.

(** The world a failed fetch leaves, whichever of the two promises
    rejects. *)
Lemma fetchConfig_fails (response : settled Response) (e : thrown) (w : World) :
  response = Rejected e \/ response = Fulfilled {| json := Rejected e |} ->
  fetchConfig response w =
    (Normal tt,
     let s := state w in
     mkWorld
       (mkState (config s) (chatModels s) (embeddingModels s)
          (selectedChatModelProvider s) (selectedChatModel s)
          (selectedEmbeddingModelProvider s) (selectedEmbeddingModel s)
          (customOpenAIApiKey s) (customOpenAIBaseURL s) false (isUpdating s))
       (isOpen w) (localStorage w)
       (trace w ++ [FetchGet; ConsoleError "Error fetching config:" e])).
Proof.
  destruct w as [s o ls tr].
  intros [-> | ->]; unfold fetchConfig; run_dialog; by rewrite <- app_assoc.
Qed.

(** Every run of [fetchConfig] passes through the suspended state: its
    record of outside effects extends the one at the first [await]. *)
Lemma fetchConfig_passes_suspension (response : settled Response) (w : World) :
  exists rest,
    trace (fetchConfig response w).2 =
      (trace (fetchConfig_until_await w).2 ++ rest)%list.
Proof.
  assert (trace (fetchConfig_until_await w).2 = trace w ++ [FetchGet])%list as ->
    by (destruct w; reflexivity).
  destruct response as [[[[data| |]|e]]|e].
  - change (Fulfilled {| json := Fulfilled (BodyObject data) |})
      with (delivers data).
    rewrite fetchConfig_delivers. exists []. cbn. by rewrite app_nil_r.
  - exists [ConsoleError "Error fetching config:" TypeError].
    destruct w as [s o ls tr]. unfold fetchConfig. run_dialog.
    cbn. by rewrite <- (assoc_L (++)).
  - exists []. destruct w as [s o ls tr]. unfold fetchConfig. run_dialog.
    cbn. by rewrite app_nil_r.
  - rewrite (fetchConfig_fails _ e w) by (right; reflexivity).
    exists [ConsoleError "Error fetching config:" e]. cbn.
    by rewrite <- (assoc_L (++)).
  - rewrite (fetchConfig_fails _ e w) by (left; reflexivity).
    exists [ConsoleError "Error fetching config:" e]. cbn.
    by rewrite <- (assoc_L (++)).
Qed.

(** C1, as the code has it: after a successful fetch of [data] the
    selections are: provider := the stored value when present and
    non-empty, else the first key of the mapping, else the empty string;
    model := the stored value when present and non-empty, else the first
    model name of the resolved provider's list, else the empty string; for
    chat and for embeddings alike.  On the document
    [{a: [{name: "x", ...}], b: []}] with nothing stored this is provider
    ["a"] and model ["x"], and with provider ["b"] resolved the model is the
    empty string. *)
Theorem fetchConfig_default_selections (data : SettingsType) (w : World) :
  let w' := (fetchConfig (delivers data) w).2 in
  let ls := localStorage w in
  let chatProvider :=
    stored_nonempty_else (ls !! "chatModelProvider")
      (first_key (chatModelProviders data)) in
  let embeddingProvider :=
    stored_nonempty_else (ls !! "embeddingModelProvider")
      (first_key (embeddingModelProviders data)) in
  ((fetchConfig (delivers data) w).1 = Normal tt
   /\ config (state w') = Some data
   /\ selectedChatModelProvider (state w') = Some chatProvider
   /\ selectedChatModel (state w') =
        Some (stored_nonempty_else (ls !! "chatModel")
                (default "" (first_model (chatModelProviders data) chatProvider)))
   /\ selectedEmbeddingModelProvider (state w') = Some embeddingProvider
   /\ selectedEmbeddingModel (state w') =
        Some (stored_nonempty_else (ls !! "embeddingModel")
                (default "" (first_model (embeddingModelProviders data)
                               embeddingProvider))))
  /\ (selectedChatModelProvider
        (state (fetchConfig (delivers sample_document) fresh_world).2) = Some "a"
      /\ selectedChatModel
           (state (fetchConfig (delivers sample_document) fresh_world).2) = Some "x")
  /\ (selectedChatModelProvider
        (state (fetchConfig (delivers sample_document)
                  (with_storage {["chatModelProvider" := "b"]} fresh_world)).2)
        = Some "b"
      /\ selectedChatModel
           (state (fetchConfig (delivers sample_document)
                     (with_storage {["chatModelProvider" := "b"]} fresh_world)).2)
           = Some "").
Proof.
  cbv zeta. split; [|split].
  - rewrite fetchConfig_delivers. cbn [fst snd state config selectedChatModelProvider
      selectedChatModel selectedEmbeddingModelProvider selectedEmbeddingModel].
    rewrite !js_or_stored, !first_or_empty_keys, !first_model_name_spec.
    repeat split; reflexivity.
  - split; vm_compute; reflexivity.
  - split; vm_compute; reflexivity.
Qed.

(** C1, as the claim states it, fails: a stored value that is present but
    empty is not used; the first provider key is. *)
Lemma stored_empty_provider_ignored :
  let w := with_storage {["chatModelProvider" := ""]} fresh_world in
  localStorage w !! "chatModelProvider" = Some ""
  /\ selectedChatModelProvider (state (fetchConfig (delivers sample_document) w).2)
       = Some "a"
  /\ selectedChatModelProvider (state (fetchConfig (delivers sample_document) w).2)
       ≠ Some (stored_else (localStorage w !! "chatModelProvider")
                 (first_key (chatModelProviders sample_document))).
Proof.
  cbv zeta. split; [|split].
  - vm_compute. reflexivity.
  - vm_compute. reflexivity.
  - vm_compute. discriminate.
Qed.

(** C3, as the code has it: when the fetch started on opening fails
    (the request or the decoding of its body rejects with [e]), the run
    completes normally with the failure logged to the console and nothing
    else done outside; the loading flag, raised while the request is in
    flight, is cleared again; every other state cell, [localStorage] and
    [isOpen] are as before.  So no spinner is shown, and the form is shown
    exactly when a document was loaded before this fetch. *)
Theorem fetch_failure_clears_loading
    (w : World) (response : settled Response) (e : thrown) :
  isOpen w = true ->
  response = Rejected e \/ response = Fulfilled {| json := Rejected e |} ->
  let r := open_effect response w in
  let s := state w in
  r.1 = Normal tt
  /\ trace r.2 = (trace w ++ [FetchGet; ConsoleError "Error fetching config:" e])%list
  /\ isLoading (state (fetchConfig_until_await w).2) = true
  /\ state r.2 =
       mkState (config s) (chatModels s) (embeddingModels s)
         (selectedChatModelProvider s) (selectedChatModel s)
         (selectedEmbeddingModelProvider s) (selectedEmbeddingModel s)
         (customOpenAIApiKey s) (customOpenAIBaseURL s) false (isUpdating s)
  /\ localStorage r.2 = localStorage w
  /\ isOpen r.2 = true
  /\ spinner_shown r.2 = false
  /\ form_shown r.2 = bool_decide (is_Some (config s)).
Proof.
  intros Hopen Hfail. cbv zeta.
  assert (open_effect response w = fetchConfig response w) as ->.
  { unfold open_effect, mbind, Eff_bind, bind, reads, when. by rewrite Hopen. }
  rewrite (fetchConfig_fails response e w Hfail).
  destruct w as [s o ls tr]. simpl in Hopen. subst o.
  unfold spinner_shown, form_shown. cbn.
  repeat split; try reflexivity.
  by rewrite andb_true_r.
Qed.

Lemma fetch_failure_clears_loading_witness :
  let r := open_effect (Rejected "TypeError: Failed to fetch") fresh_world in
  r.1 = Normal tt
  /\ trace r.2 =
       [FetchGet; ConsoleError "Error fetching config:" "TypeError: Failed to fetch"]
  /\ isLoading (state r.2) = false
  /\ form_shown r.2 = false.
Proof.
  destruct (fetch_failure_clears_loading fresh_world
              (Rejected "TypeError: Failed to fetch") "TypeError: Failed to fetch"
              eq_refl (or_introl eq_refl))
    as (Hrun & Htrace & _ & Hstate & _ & _ & _ & Hform).
  cbv zeta. rewrite Hrun, Htrace, Hstate, Hform. repeat split.
Defined.

(** C3, as the claim states it, fails: after a failed fetch on first
    opening the loading flag is not set any more. *)
Lemma loading_flag_cleared_after_failed_fetch :
  ~ (isLoading
       (state (open_effect (Rejected "TypeError: Failed to fetch") fresh_world).2)
     = true).
Proof.
  vm_compute. discriminate.
Qed.

(** ** [handleSubmit] *)

Lemma when_truthy_setItem (key : string) (selection : option string) (w : World) :
  when_truthy selection (setItem key) w =
    (Normal tt,
     mkWorld (state w) (isOpen w) (store key selection (localStorage w))
       (trace w ++ writes key selection)).
Proof.
  destruct w as [s o ls tr]. unfold when_truthy, store, writes.
  destruct selection as [v|].
  - rewrite truthy_Some. destruct (decide (v = "")) as [->|Hne].
    + cbn. by rewrite app_nil_r.
    + rewrite bool_decide_eq_true_2 by done. reflexivity.
  - cbn. by rewrite app_nil_r.
Qed.

Lemma lookup_store (key key' : string) (selection : option string)
    (ls : gmap string string) :
  store key selection ls !! key' =
    if decide (key = key') then written_or_kept selection (ls !! key')
    else ls !! key'.
Proof.
  unfold store, written_or_kept.
  destruct selection as [v|]; [destruct (decide (v = ""))|];
    destruct (decide (key = key')) as [->|Hne]; try reflexivity.
  - apply lookup_insert_eq.
  - by apply lookup_insert_ne.
Qed.

(** A save whose submit resolves. *)
Lemma handleSubmit_resolved (w : World) (c : SettingsType) :
  config (state w) = Some c ->
  handleSubmit (Fulfilled tt) w =
    (Normal tt,
     let s := state w in
     mkWorld (state_after_save s) false
       (<["openAIBaseURL" := customOpenAIBaseURL s]>
          (<["openAIApiKey" := customOpenAIApiKey s]>
             (store "embeddingModel" (selectedEmbeddingModel s)
                (store "embeddingModelProvider" (selectedEmbeddingModelProvider s)
                   (store "chatModel" (selectedChatModel s)
                      (store "chatModelProvider" (selectedChatModelProvider s)
                         (localStorage w)))))))
       (trace w ++ [FetchPost c]
          ++ writes "chatModelProvider" (selectedChatModelProvider s)
          ++ writes "chatModel" (selectedChatModel s)
          ++ writes "embeddingModelProvider" (selectedEmbeddingModelProvider s)
          ++ writes "embeddingModel" (selectedEmbeddingModel s)
          ++ [SetItem "openAIApiKey" (customOpenAIApiKey s);
              SetItem "openAIBaseURL" (customOpenAIBaseURL s);
              SetIsOpen false; Reload])).
Proof.
  intros Hc. destruct w as [s o ls tr]. simpl in Hc.
  unfold handleSubmit. erewrite bind_step by reflexivity.
  cbn [state]. rewrite Hc.
  erewrite bind_step by reflexivity.
  unfold try_catch_finally, try_catch.
  repeat (erewrite bind_step; [|first [apply when_truthy_setItem | reflexivity]]).
  destruct s; run_dialog. cbv [state_after_save]. cbn.
  f_equal. f_equal. rewrite <- !app_assoc. reflexivity.
Qed.

(** A save whose submit rejects. *)
Lemma handleSubmit_rejected (w : World) (c : SettingsType) (e : thrown) :
  config (state w) = Some c ->
  handleSubmit (Rejected e) w =
    (Normal tt,
     mkWorld (state_after_save (state w)) false (localStorage w)
       (trace w ++ [FetchPost c; ConsoleError "Error updating config:" e;
                    SetIsOpen false; Reload])).
Proof.
  intros Hc. destruct w as [s o ls tr]. simpl in Hc.
  unfold handleSubmit, mbind, Eff_bind. unfold bind at 1. unfold reads.
  cbn [state]. rewrite Hc.
  destruct s; run_dialog. cbv [state_after_save]. cbn.
  f_equal. f_equal. rewrite <- !app_assoc. reflexivity.
Qed.

(** C2, as the code has it: on a save with a loaded document whose submit
    does not throw, each of the entries [chatModelProvider], [chatModel],
    [embeddingModelProvider], [embeddingModel] is written exactly when the
    corresponding selection is non-empty (and otherwise keeps what was
    stored), the entries [openAIApiKey] and [openAIBaseURL] are written with
    the current field values whatever they are, and no other entry changes;
    when the submit throws, [localStorage] is left as it was. *)
Theorem save_persists_preferences (w : World) (c : SettingsType) :
  config (state w) = Some c ->
  let s := state w in
  let ls := localStorage w in
  let w' := (handleSubmit (Fulfilled tt) w).2 in
  let ls' := localStorage w' in
  trace w' =
    (trace w ++ [FetchPost c]
       ++ writes "chatModelProvider" (selectedChatModelProvider s)
       ++ writes "chatModel" (selectedChatModel s)
       ++ writes "embeddingModelProvider" (selectedEmbeddingModelProvider s)
       ++ writes "embeddingModel" (selectedEmbeddingModel s)
       ++ [SetItem "openAIApiKey" (customOpenAIApiKey s);
           SetItem "openAIBaseURL" (customOpenAIBaseURL s);
           SetIsOpen false; Reload])%list
  /\ ls' !! "chatModelProvider" =
       written_or_kept (selectedChatModelProvider s) (ls !! "chatModelProvider")
  /\ ls' !! "chatModel" =
       written_or_kept (selectedChatModel s) (ls !! "chatModel")
  /\ ls' !! "embeddingModelProvider" =
       written_or_kept (selectedEmbeddingModelProvider s)
         (ls !! "embeddingModelProvider")
  /\ ls' !! "embeddingModel" =
       written_or_kept (selectedEmbeddingModel s) (ls !! "embeddingModel")
  /\ ls' !! "openAIApiKey" = Some (customOpenAIApiKey s)
  /\ ls' !! "openAIBaseURL" = Some (customOpenAIBaseURL s)
  /\ (forall key, key ∉ preference_keys -> ls' !! key = ls !! key)
  /\ (forall e, localStorage (handleSubmit (Rejected e) w).2 = ls).
Proof.
  intros Hc. cbv zeta.
  rewrite (handleSubmit_resolved w c Hc). cbn [snd trace localStorage].
  split; [reflexivity|].
  repeat split.
  - rewrite !lookup_insert_ne, !lookup_store by discriminate. reflexivity.
  - rewrite !lookup_insert_ne, !lookup_store by discriminate. reflexivity.
  - rewrite !lookup_insert_ne, !lookup_store by discriminate. reflexivity.
  - rewrite !lookup_insert_ne, !lookup_store by discriminate. reflexivity.
  - rewrite lookup_insert_ne by discriminate. apply lookup_insert_eq.
  - apply lookup_insert_eq.
  - intros key Hkey. unfold preference_keys in Hkey.
    rewrite !not_elem_of_cons in Hkey.
    destruct Hkey as (H1 & H2 & H3 & H4 & H5 & H6 & _).
    rewrite !lookup_insert_ne, !lookup_store by done.
    repeat case_decide; congruence.
  - intros e. rewrite (handleSubmit_rejected w c e Hc). reflexivity.
Qed.

Lemma save_persists_preferences_witness :
  let w := ready_world sample_document in
  let w' := (handleSubmit (Fulfilled tt) w).2 in
  localStorage w' !! "chatModelProvider" = Some "a"
  /\ localStorage w' !! "chatModel" = Some "x"
  /\ localStorage w' !! "openAIApiKey" = Some ""
  /\ localStorage w' !! "openAIBaseURL" = Some ""
  /\ localStorage w' !! "theme" = None.
Proof.
  cbv zeta.
  destruct (save_persists_preferences (ready_world sample_document)
              sample_document eq_refl)
    as (_ & Hprovider & Hmodel & _ & _ & Hkey & Hurl & Hother & _).
  rewrite Hprovider, Hmodel, Hkey, Hurl, Hother.
  - repeat split; vm_compute; reflexivity.
  - unfold preference_keys. rewrite !not_elem_of_cons.
    repeat split; try discriminate. apply not_elem_of_nil.
Defined.

(** C2, as the claim states it, fails: a save whose submit throws writes
    neither custom-endpoint entry, although their fields have values. *)
Lemma failed_save_writes_nothing :
  let w :=
    mkWorld
      (mkState (Some sample_document) providers_a_b providers_a_b
         (Some "a") (Some "x") (Some "a") (Some "x")
         "sk-custom" "https://llm.example/v1" false false)
      true ∅ [] in
  let w' := (handleSubmit (Rejected "TypeError: Failed to fetch") w).2 in
  customOpenAIApiKey (state w) = "sk-custom"
  /\ localStorage w' !! "openAIApiKey" ≠ Some (customOpenAIApiKey (state w))
  /\ localStorage w' !! "openAIBaseURL" ≠ Some (customOpenAIBaseURL (state w))
  /\ localStorage w' !! "chatModelProvider" ≠ selectedChatModelProvider (state w)
  /\ trace w' =
       [FetchPost sample_document;
        ConsoleError "Error updating config:" "TypeError: Failed to fetch";
        SetIsOpen false; Reload].
Proof.
  cbv zeta. repeat split; vm_compute; discriminate.
Qed.

(** C8: a save with a loaded document completes normally and, whether
    the submit resolves or throws, first posts the document, last closes
    the dialog and then reloads the page, with only [localStorage] writes
    or the console log of the failure in between; a failure is logged and
    nothing else: the component state after a failed save is the state
    after a successful one, and the dialog is closed either way. *)
Theorem save_closes_and_reloads
    (w : World) (c : SettingsType) (response : settled unit) :
  config (state w) = Some c ->
  let r := handleSubmit response w in
  r.1 = Normal tt
  /\ (exists between,
        trace r.2 =
          (trace w ++ FetchPost c :: between ++ [SetIsOpen false; Reload])%list
        /\ match response with
           | Fulfilled _ => forall ev, ev ∈ between -> exists k v, ev = SetItem k v
           | Rejected e => between = [ConsoleError "Error updating config:" e]
           end)
  /\ isOpen r.2 = false
  /\ state r.2 = state_after_save (state w)
  /\ state r.2 = state (handleSubmit (Fulfilled tt) w).2
  /\ isOpen r.2 = isOpen (handleSubmit (Fulfilled tt) w).2.
Proof.
  intros Hc. cbv zeta.
  rewrite (handleSubmit_resolved w c Hc).
  destruct response as [[]|e].
  - rewrite (handleSubmit_resolved w c Hc). cbn [fst snd trace isOpen state].
    repeat split.
    exists (writes "chatModelProvider" (selectedChatModelProvider (state w))
              ++ writes "chatModel" (selectedChatModel (state w))
              ++ writes "embeddingModelProvider"
                   (selectedEmbeddingModelProvider (state w))
              ++ writes "embeddingModel" (selectedEmbeddingModel (state w))
              ++ [SetItem "openAIApiKey" (customOpenAIApiKey (state w));
                  SetItem "openAIBaseURL" (customOpenAIBaseURL (state w))])%list.
    split.
    + f_equal. rewrite <- !app_assoc. reflexivity.
    + intros ev Hev. rewrite !elem_of_app in Hev.
      assert (forall k sel, ev ∈ writes k sel -> exists k v, ev = SetItem k v) as Hw.
      { intros k sel. unfold writes.
        destruct sel as [v|]; [destruct (decide (v = ""))|]; intros Hin.
        - by apply elem_of_nil in Hin.
        - apply list_elem_of_singleton in Hin. eauto.
        - by apply elem_of_nil in Hin. }
      destruct Hev as [Hev|[Hev|[Hev|[Hev|Hev]]]]; eauto.
      rewrite !elem_of_cons in Hev.
      destruct Hev as [->|[->|Hev]]; eauto. by apply elem_of_nil in Hev.
  - rewrite (handleSubmit_rejected w c e Hc). cbn [fst snd trace isOpen state].
    repeat split.
    exists [ConsoleError "Error updating config:" e]. split; reflexivity.
Qed.

Lemma save_closes_and_reloads_witness :
  let r := handleSubmit (Rejected "TypeError: Failed to fetch")
             (ready_world sample_document) in
  r.1 = Normal tt
  /\ isOpen r.2 = false
  /\ state r.2 = state_after_save (state (ready_world sample_document)).
Proof.
  cbv zeta.
  destruct (save_closes_and_reloads (ready_world sample_document) sample_document
              (Rejected "TypeError: Failed to fetch") eq_refl)
    as (Hrun & _ & Hopen & Hstate & _).
  repeat split; assumption.
Defined.

(** C9: invoked with no document loaded, [handleSubmit] returns at once:
    it completes normally and the world (component state, [isOpen],
    [localStorage], record of outside effects) is exactly what it was; no
    request, no write, no close, no reload. *)
Theorem save_without_document_is_noop (w : World) (response : settled unit) :
  config (state w) = None ->
  handleSubmit response w = (Normal tt, w).
Proof.
  intros Hc. unfold handleSubmit.
  erewrite bind_step by reflexivity. rewrite Hc. reflexivity.
Qed.

Lemma save_without_document_is_noop_witness :
  handleSubmit (Fulfilled tt) fresh_world = (Normal tt, fresh_world)
  /\ handleSubmit (Rejected "TypeError: Failed to fetch") fresh_world
       = (Normal tt, fresh_world).
Proof.
  split; apply save_without_document_is_noop; reflexivity.
Defined.

(** ** The provider selectors *)


Lemma onChatProviderChange_custom (w : World) :
  onChatProviderChange "custom_openai" w =
    (Normal tt, with_chat_selection (Some "custom_openai") (Some "") w).
Proof.
  destruct w as [s o ls tr]. reflexivity.
Qed.

(** The chat selector on any other value: the first model of the value's
    list, or a [TypeError] with only the provider selection made. *)
Lemma onChatProviderChange_other (w : World) (c : SettingsType) (value : string) :
  config (state w) = Some c ->
  value ≠ "custom_openai" ->
  onChatProviderChange value w =
    match models_of (chatModelProviders c) value with
    | Some (first :: _) =>
        (Normal tt, with_chat_selection (Some value) (Some (name first)) w)
    | _ =>
        (Abrupt TypeError,
         with_chat_selection (Some value) (selectedChatModel (state w)) w)
    end.
Proof.
  intros Hc Hne. destruct w as [s o ls tr]. simpl in Hc.
  unfold onChatProviderChange.
  do 2 (erewrite bind_step by reflexivity).
  destruct (String.eqb_spec value "custom_openai") as [->|_]; [done|].
  cbn [state]. rewrite Hc. erewrite bind_step by reflexivity.
  unfold models_of.
  destruct (chatModelProviders c) as [ps|]; [|reflexivity].
  erewrite bind_step by reflexivity.
  destruct (obj_get ps value) as [[|first models]|]; reflexivity.
Qed.

(** The embedding selector on every value: the same, with no special
    case. *)
Lemma onEmbeddingProviderChange_run (w : World) (c : SettingsType) (value : string) :
  config (state w) = Some c ->
  onEmbeddingProviderChange value w =
    match models_of (embeddingModelProviders c) value with
    | Some (first :: _) =>
        (Normal tt, with_embedding_selection (Some value) (Some (name first)) w)
    | _ =>
        (Abrupt TypeError,
         with_embedding_selection (Some value) (selectedEmbeddingModel (state w)) w)
    end.
Proof.
  intros Hc. destruct w as [s o ls tr]. simpl in Hc.
  unfold onEmbeddingProviderChange.
  do 2 (erewrite bind_step by reflexivity).
  cbn [state]. rewrite Hc. erewrite bind_step by reflexivity.
  unfold models_of.
  destruct (embeddingModelProviders c) as [ps|]; [|reflexivity].
  erewrite bind_step by reflexivity.
  destruct (obj_get ps value) as [[|first models]|]; reflexivity.
Qed.

Lemma first_model_models_of (providers : option Providers) (provider first : string) :
  first_model providers provider = Some first ->
  exists m models,
    models_of providers provider = Some (m :: models) /\ name m = first.
Proof.
  unfold first_model, models_of.
  destruct providers as [o|]; [|discriminate].
  destruct (obj_get o provider) as [[|m models]|]; try discriminate.
  intros [= <-]. eauto.
Qed.

(** C4, as the code has it.  The chat selector sets the model to the
    empty string on the value ["custom_openai"], in every state; with a
    document loaded, on any other value whose list has a first model it
    sets the model to that model's name.  The embedding selector, with a
    document loaded, sets the model to the name of the first model of the
    selected value's list whenever there is one, the value
    ["custom_openai"] included: it has no special case.  Each handler also
    records the selected provider and changes nothing else.  The three
    statements hold independently of each other. *)
Theorem provider_change_resets_model :
  (forall w : World,
     onChatProviderChange "custom_openai" w =
       (Normal tt, with_chat_selection (Some "custom_openai") (Some "") w))
  /\ (forall (w : World) (c : SettingsType) (value first : string),
        config (state w) = Some c ->
        value ≠ "custom_openai" ->
        first_model (chatModelProviders c) value = Some first ->
        onChatProviderChange value w =
          (Normal tt, with_chat_selection (Some value) (Some first) w))
  /\ (forall (w : World) (c : SettingsType) (value first : string),
        config (state w) = Some c ->
        first_model (embeddingModelProviders c) value = Some first ->
        onEmbeddingProviderChange value w =
          (Normal tt, with_embedding_selection (Some value) (Some first) w)).
Proof.
  split; [|split].
  - apply onChatProviderChange_custom.
  - intros w c value first Hc Hne Hfirst.
    rewrite (onChatProviderChange_other w c value Hc Hne).
    destruct (first_model_models_of _ _ _ Hfirst) as (m & models & -> & <-).
    reflexivity.
  - intros w c value first Hc Hfirst.
    rewrite (onEmbeddingProviderChange_run w c value Hc).
    destruct (first_model_models_of _ _ _ Hfirst) as (m & models & -> & <-).
    reflexivity.
Qed.

(** On a document that offers all the values selected: the custom
    endpoint and another provider in the chat selector, the custom
    endpoint in the embedding selector; and the custom endpoint on a
    document that offers nothing else and no embedding mapping. *)
Lemma provider_change_resets_model_witness :
  let w := ready_world custom_chat_document in
  (selectedChatModel (state w) = Some "x"
   /\ selectedEmbeddingModel (state w) = Some "small")
  /\ selectedChatModel (state (onChatProviderChange "custom_openai" w).2) = Some ""
  /\ selectedChatModel (state (onChatProviderChange "openai" w).2) = Some "gpt"
  /\ selectedEmbeddingModel (state (onEmbeddingProviderChange "custom_openai" w).2)
       = Some "e"
  /\ selectedChatModel
       (state (onChatProviderChange "custom_openai"
                 (ready_world only_custom_document)).2) = Some "".
Proof.
  cbv zeta.
  destruct provider_change_resets_model as (Hcustom & Hchat & Hemb).
  assert (config (state (ready_world custom_chat_document))
          = Some custom_chat_document) as Hc by (vm_compute; reflexivity).
  rewrite !Hcustom.
  rewrite (Hchat (ready_world custom_chat_document) custom_chat_document
             "openai" "gpt" Hc ltac:(discriminate) eq_refl).
  rewrite (Hemb (ready_world custom_chat_document) custom_chat_document
             "custom_openai" "e" Hc eq_refl).
  repeat split; vm_compute; reflexivity.
Defined.

(** C4, as the claim states it, fails for the embedding selector:
    selecting ["custom_openai"] there does not clear the model, it selects
    the first model listed under that value. *)
Lemma embedding_custom_value_not_cleared :
  let w := ready_world custom_embedding_document in
  selectedEmbeddingModel (state w) = Some "small"
  /\ selectedEmbeddingModel (state (onEmbeddingProviderChange "custom_openai" w).2)
       = Some "e"
  /\ selectedEmbeddingModel (state (onEmbeddingProviderChange "custom_openai" w).2)
       ≠ Some "".
Proof.
  cbv zeta. split; [|split]; vm_compute; congruence.
Qed.


End SettingsDialogFacts.

(** * Further properties of the provider loader *)

Module OpenRouterMore.
Import OpenRouter OpenRouterFacts.

(** X1: on every input the loader completes normally and only appends
    to the record of outside effects.  Its mapping is non-empty exactly
    when the API key is non-empty and the client construction succeeds;
    it attempts a construction exactly when the key is non-empty, always
    with the same arguments; and it logs exactly when the key is non-empty
    and the construction threw. *)
Theorem loader_outcomes {Client : Type}
    (ChatOpenAI : ChatOpenAIFields -> ClientOptions -> completion Client)
    (cfg : ProcessConfig) (log : list event) :
  let configured :=
    exists key, getOpenRouterApiKey cfg = Some key /\ key ≠ "" in
  exists models evs,
    loadOpenRouterChatModels ChatOpenAI cfg log = (Normal models, log ++ evs)%list
    /\ (models ≠ [] <->
         configured /\ exists client,
           ChatOpenAI (expected_fields cfg) (expected_options cfg) = Normal client)
    /\ (NewChatOpenAI (expected_fields cfg) (expected_options cfg) ∈ evs
         <-> configured)
    /\ (forall fields options,
          NewChatOpenAI fields options ∈ evs ->
          fields = expected_fields cfg /\ options = expected_options cfg)
    /\ ((exists message, LoggerError message ∈ evs) <->
         configured /\ exists e,
           ChatOpenAI (expected_fields cfg) (expected_options cfg) = Abrupt e).
Proof.
  cbv zeta.
  destruct (truthy (getOpenRouterApiKey cfg)) eqn:Hkey.
  - destruct (getOpenRouterApiKey cfg) as [k|] eqn:Hk; [|discriminate Hkey].
    assert (k ≠ "") as Hne by (intros ->; discriminate Hkey).
    assert (exists key, Some k = Some key /\ key ≠ "") as Hconf by eauto.
    rewrite (loader_with_key ChatOpenAI cfg k log Hk Hne).
    destruct (ChatOpenAI (expected_fields cfg) (expected_options cfg))
      as [client|e] eqn:Hnew.
    + eexists _, _. split; [reflexivity|].
      split; [|split; [|split]].
      * split; [eauto | done].
      * split; [done | intros _; by apply list_elem_of_singleton].
      * intros fields options Hin. apply list_elem_of_singleton in Hin.
        by injection Hin.
      * split.
        -- intros [message Hin]. apply list_elem_of_singleton in Hin. discriminate.
        -- intros [_ [e He]]. discriminate.
    + eexists _, _. split; [reflexivity|].
      split; [|split; [|split]].
      * split; [done | intros [_ [client Hc]]; discriminate].
      * split; [done | intros _; apply elem_of_cons; by left].
      * intros fields options Hin. rewrite !elem_of_cons in Hin.
        destruct Hin as [Hin|[Hin|Hin]];
          [by injection Hin | discriminate | by apply elem_of_nil in Hin].
      * split; [eauto|].
        intros _. eexists. apply elem_of_cons. right. apply elem_of_cons. by left.
  - rewrite (loader_falsy_key ChatOpenAI cfg log Hkey).
    assert (~ exists key, getOpenRouterApiKey cfg = Some key /\ key ≠ "") as Hno.
    { intros (key & Hk & Hne). rewrite Hk in Hkey.
      by rewrite (truthy_nonempty key Hne) in Hkey. }
    exists [], []. split; [by rewrite app_nil_r|].
    split; [|split; [|split]].
    + split; [done | intros [H _]; contradiction].
    + split; [intros H; by apply elem_of_nil in H | done].
    + intros fields options H. by apply elem_of_nil in H.
    + split; [|intros [H _]; contradiction].
      intros [message H]. by apply elem_of_nil in H.
Qed.
End OpenRouterMore.

(** * Further properties of the settings dialog *)

Module SettingsDialogMore.
Import SettingsDialog SettingsDialogFacts.

(** ** Loading and saving together *)

(** The six entries of [localStorage] after a save whose submit resolves. *)
Lemma saved_entries (w : World) (c : SettingsType) :
  config (state w) = Some c ->
  let s := state w in
  let ls := localStorage w in
  let ls' := localStorage (handleSubmit (Fulfilled tt) w).2 in
  ls' !! "chatModelProvider" =
    written_or_kept (selectedChatModelProvider s) (ls !! "chatModelProvider")
  /\ ls' !! "chatModel" =
       written_or_kept (selectedChatModel s) (ls !! "chatModel")
  /\ ls' !! "embeddingModelProvider" =
       written_or_kept (selectedEmbeddingModelProvider s)
         (ls !! "embeddingModelProvider")
  /\ ls' !! "embeddingModel" =
       written_or_kept (selectedEmbeddingModel s) (ls !! "embeddingModel")
  /\ ls' !! "openAIApiKey" = Some (customOpenAIApiKey s)
  /\ ls' !! "openAIBaseURL" = Some (customOpenAIBaseURL s).
Proof.
  intros Hc. cbv zeta.
  rewrite (handleSubmit_resolved w c Hc). cbn [snd localStorage].
  repeat split.
  - rewrite !lookup_insert_ne, !lookup_store by discriminate. reflexivity.
  - rewrite !lookup_insert_ne, !lookup_store by discriminate. reflexivity.
  - rewrite !lookup_insert_ne, !lookup_store by discriminate. reflexivity.
  - rewrite !lookup_insert_ne, !lookup_store by discriminate. reflexivity.
  - rewrite lookup_insert_ne by discriminate. apply lookup_insert_eq.
  - apply lookup_insert_eq.
Qed.

Lemma stored_nonempty_else_written (selection previous : option string)
    (fallback v : string) :
  selection = Some v -> v ≠ "" ->
  stored_nonempty_else (written_or_kept selection previous) fallback = v.
Proof.
  intros -> Hne. unfold written_or_kept, stored_nonempty_else.
  destruct (decide (v = "")); [contradiction|].
  destruct (decide (v = "")); [contradiction|reflexivity].
Qed.

Lemma stored_nonempty_else_empty (v : string) :
  stored_nonempty_else (Some v) "" = v.
Proof.
  unfold stored_nonempty_else. by destruct (decide (v = "")).
Qed.

Lemma reloaded_keeps_storage (w : World) :
  localStorage (reloaded w) = localStorage w.
Proof. reflexivity. Qed.

(** X2: what a save persists, the next load finds.  After a save with a
    loaded document whose submit resolves, a successful fetch of any
    document in any render over the saved [localStorage] (the page after
    the reload) selects again every provider and model that was non-empty
    at the save, and shows again the custom-endpoint key and base URL,
    whatever they were and whatever the fetched document offers. *)
Theorem saved_preferences_restored (w w1 : World) (c data : SettingsType) :
  config (state w) = Some c ->
  localStorage w1 = localStorage (handleSubmit (Fulfilled tt) w).2 ->
  let s := state w in
  let s' := state (fetchConfig (delivers data) w1).2 in
  restored (selectedChatModelProvider s) (selectedChatModelProvider s')
  /\ restored (selectedChatModel s) (selectedChatModel s')
  /\ restored (selectedEmbeddingModelProvider s) (selectedEmbeddingModelProvider s')
  /\ restored (selectedEmbeddingModel s) (selectedEmbeddingModel s')
  /\ customOpenAIApiKey s' = customOpenAIApiKey s
  /\ customOpenAIBaseURL s' = customOpenAIBaseURL s.
Proof.
  intros Hc Hls. cbv zeta.
  destruct (saved_entries w c Hc) as (H1 & H2 & H3 & H4 & H5 & H6).
  rewrite fetchConfig_delivers.
  cbn [snd state selectedChatModelProvider selectedChatModel
       selectedEmbeddingModelProvider selectedEmbeddingModel
       customOpenAIApiKey customOpenAIBaseURL].
  rewrite !js_or_stored, Hls, H1, H2, H3, H4, H5, H6.
  unfold restored.
  repeat split; try (intros v Hv Hne; f_equal;
                     by apply stored_nonempty_else_written).
  - apply stored_nonempty_else_empty.
  - apply stored_nonempty_else_empty.
Qed.

Lemma saved_preferences_restored_witness :
  let saved := (handleSubmit (Fulfilled tt) (ready_world sample_document)).2 in
  let s' := state (fetchConfig (delivers custom_embedding_document)
                     (reloaded saved)).2 in
  selectedChatModelProvider s' = Some "a"
  /\ selectedChatModel s' = Some "x"
  /\ selectedEmbeddingModelProvider s' = Some "a"
  /\ customOpenAIApiKey s' = "".
Proof.
  cbv zeta.
  assert (config (state (ready_world sample_document)) = Some sample_document)
    as Hc by (vm_compute; reflexivity).
  assert (localStorage
            (reloaded (handleSubmit (Fulfilled tt) (ready_world sample_document)).2)
          = localStorage (handleSubmit (Fulfilled tt) (ready_world sample_document)).2)
    as Hls by apply reloaded_keeps_storage.
  destruct (saved_preferences_restored (ready_world sample_document)
              (reloaded (handleSubmit (Fulfilled tt) (ready_world sample_document)).2)
              sample_document custom_embedding_document Hc Hls)
    as (Hcp & Hcm & Hep & _ & Hkey & _).
  split; [|split; [|split]].
  - apply Hcp; [vm_compute; reflexivity | discriminate].
  - apply Hcm; [vm_compute; reflexivity | discriminate].
  - apply Hep; [vm_compute; reflexivity | discriminate].
  - rewrite Hkey. vm_compute. reflexivity.
Defined.

(** The world a fetch leaves whose body decodes to [null]: the document
    cell is emptied before the first property read throws. *)
Lemma fetchConfig_null (w : World) :
  fetchConfig (Fulfilled {| json := Fulfilled BodyNull |}) w =
    (Normal tt,
     let s := state w in
     mkWorld
       (mkState None (chatModels s) (embeddingModels s)
          (selectedChatModelProvider s) (selectedChatModel s)
          (selectedEmbeddingModelProvider s) (selectedEmbeddingModel s)
          (customOpenAIApiKey s) (customOpenAIBaseURL s) false (isUpdating s))
       (isOpen w) (localStorage w)
       (trace w ++ [FetchGet; ConsoleError "Error fetching config:" TypeError])).
Proof.
  destruct w as [s o ls tr]. unfold fetchConfig. run_dialog.
  by rewrite <- app_assoc.
Qed.

(** The world a fetch leaves whose body decodes to a falsy primitive:
    nothing throws, and the selections are those over no mappings. *)
Lemma fetchConfig_falsy (w : World) :
  fetchConfig (Fulfilled {| json := Fulfilled BodyFalsy |}) w =
    (Normal tt,
     let ls := localStorage w in
     mkWorld
       (mkState None [] []
          (Some (js_or (ls !! "chatModelProvider") ""))
          (Some (js_or (ls !! "chatModel") ""))
          (Some (js_or (ls !! "embeddingModelProvider") ""))
          (Some (js_or (ls !! "embeddingModel") ""))
          (js_or (ls !! "openAIApiKey") "")
          (js_or (ls !! "openAIBaseURL") "")
          false
          (isUpdating (state w)))
       (isOpen w) ls (trace w ++ [FetchGet])).
Proof.
  destruct w as [s o ls tr]. unfold fetchConfig. run_dialog. reflexivity.
Qed.

(** X3: whatever the fetch does, [fetchConfig] completes normally with
    the loading flag down, having issued one request; it never touches
    [localStorage], [isOpen] or the updating flag.  There are four
    outcomes.  A document was delivered and is now the loaded one.  Or the
    request or the decoding rejected: the failure is logged and the whole
    state, the loaded document included, is the one from before.  Or the
    body decoded to [null]: a [TypeError] is logged, the selections are
    the ones from before, but the loaded document is gone.  Or the body
    decoded to a falsy primitive: nothing is logged, no document is
    loaded, and each selection is the stored value when non-empty, else
    the empty string. *)
Theorem fetchConfig_settles (response : settled Response) (w : World) :
  let r := fetchConfig response w in
  let s := state w in
  let ls := localStorage w in
  r.1 = Normal tt
  /\ isLoading (state r.2) = false
  /\ isUpdating (state r.2) = isUpdating s
  /\ localStorage r.2 = ls
  /\ isOpen r.2 = isOpen w
  /\ ((exists data,
         response = delivers data
         /\ config (state r.2) = Some data
         /\ trace r.2 = (trace w ++ [FetchGet])%list)
      \/ (exists e,
            (response = Rejected e \/ response = Fulfilled {| json := Rejected e |})
            /\ state r.2 =
                 mkState (config s) (chatModels s) (embeddingModels s)
                   (selectedChatModelProvider s) (selectedChatModel s)
                   (selectedEmbeddingModelProvider s) (selectedEmbeddingModel s)
                   (customOpenAIApiKey s) (customOpenAIBaseURL s)
                   false (isUpdating s)
            /\ trace r.2 =
                 (trace w ++ [FetchGet; ConsoleError "Error fetching config:" e])%list)
      \/ (response = Fulfilled {| json := Fulfilled BodyNull |}
          /\ state r.2 =
               mkState None (chatModels s) (embeddingModels s)
                 (selectedChatModelProvider s) (selectedChatModel s)
                 (selectedEmbeddingModelProvider s) (selectedEmbeddingModel s)
                 (customOpenAIApiKey s) (customOpenAIBaseURL s)
                 false (isUpdating s)
          /\ trace r.2 =
               (trace w ++ [FetchGet;
                            ConsoleError "Error fetching config:" TypeError])%list)
      \/ (response = Fulfilled {| json := Fulfilled BodyFalsy |}
          /\ state r.2 =
               mkState None [] []
                 (Some (stored_nonempty_else (ls !! "chatModelProvider") ""))
                 (Some (stored_nonempty_else (ls !! "chatModel") ""))
                 (Some (stored_nonempty_else (ls !! "embeddingModelProvider") ""))
                 (Some (stored_nonempty_else (ls !! "embeddingModel") ""))
                 (stored_nonempty_else (ls !! "openAIApiKey") "")
                 (stored_nonempty_else (ls !! "openAIBaseURL") "")
                 false (isUpdating s)
          /\ trace r.2 = (trace w ++ [FetchGet])%list)).
Proof.
  cbv zeta. destruct response as [[[[data| |]|e]]|e].
  - change (Fulfilled {| json := Fulfilled (BodyObject data) |})
      with (delivers data).
    rewrite fetchConfig_delivers. repeat split. left. eauto.
  - rewrite fetchConfig_null. repeat split. right. right. left. eauto.
  - rewrite fetchConfig_falsy. repeat split. right. right. right.
    cbn [snd state trace]. rewrite !js_or_stored. eauto.
  - rewrite (fetchConfig_fails _ e w) by (right; reflexivity).
    repeat split. right. left. exists e. eauto.
  - rewrite (fetchConfig_fails _ e w) by (left; reflexivity).
    repeat split. right. left. exists e. eauto.
Qed.

(** X4: a successful fetch starts the form afresh.  The component state
    it leaves is determined by the delivered document and [localStorage]
    (and the updating flag): documents, selections and field values of
    the render before, saved or not, leave no mark. *)
Theorem fetch_discards_unsaved_state (w1 w2 : World) (data : SettingsType) :
  localStorage w1 = localStorage w2 ->
  isUpdating (state w1) = isUpdating (state w2) ->
  state (fetchConfig (delivers data) w1).2
  = state (fetchConfig (delivers data) w2).2.
Proof.
  intros Hls Hup. rewrite !fetchConfig_delivers.
  cbn [snd state]. by rewrite Hls, Hup.
Qed.

Lemma fetch_discards_unsaved_state_witness :
  state (fetchConfig (delivers sample_document)
           (onChatProviderChange "b" (ready_world custom_embedding_document)).2).2
  = state (fetchConfig (delivers sample_document) fresh_world).2.
Proof.
  apply fetch_discards_unsaved_state; reflexivity.
Defined.
(** ** The model pickers *)

Lemma option_models_of (providers : option Providers) (provider : string) :
  provider ∈ provider_options providers ->
  exists models, models_of providers provider = Some models.
Proof.
  destruct providers as [o|]; simpl.
  - unfold provider_options, Object_keys. simpl.
    induction o as [|[k v] o IH]; simpl; intros Hin.
    + by apply elem_of_nil in Hin.
    + destruct (String.eqb_spec k provider) as [->|Hne]; [eauto|].
      apply elem_of_cons in Hin. destruct Hin as [->|Hin]; [done|].
      by apply IH.
  - intros Hin. by apply elem_of_nil in Hin.
Qed.

Lemma offered_enabled_map (models : list ModelInfo) (n : string) :
  offered
    (map (fun model =>
            {| value := name model; label := displayName model; disabled := false |})
       models) n
  <-> exists m, m ∈ models /\ name m = n.
Proof.
  unfold offered. split.
  - intros (x & Hin & _ & Hv). apply list_elem_of_fmap in Hin.
    destruct Hin as (m & -> & Hm). eauto.
  - intros (m & Hm & Hn). eexists. split; [|split].
    + apply list_elem_of_fmap. exists m. split; [reflexivity | exact Hm].
    + reflexivity.
    + exact Hn.
Qed.

Lemma offered_disabled_only (l : string) (n : string) :
  ~ offered [{| value := ""; label := l; disabled := true |}] n.
Proof.
  intros (x & Hin & Hd & _). apply list_elem_of_singleton in Hin. subst x.
  discriminate Hd.
Qed.

Lemma prototype_has_no_models (key : string) (models : list ModelInfo) :
  prototype_member Object_prototype key ≠ Models models.
Proof.
  unfold Object_prototype. cbn [prototype_member].
  repeat (destruct (String.eqb _ key); [discriminate|]). discriminate.
Qed.

(** The two ways a picker's options come out over a mapping that is
    there. *)
Ltac picker_cases o provider :=
  unfold names_prototype_method, listed, lookup_member;
  destruct (obj_get o provider) as [[|m models]|] eqn:Hget;
  [ right; split; [intros [? _]; discriminate|];
    eexists; split; [reflexivity|]; split; [discriminate|];
    intros n; split;
    [ intros H; by apply offered_disabled_only in H
    | intros (models & m & [= <-] & Hm & _); by apply elem_of_nil in Hm ]
  | right; split; [intros [? _]; discriminate|];
    eexists; split; [reflexivity|]; split; [discriminate|];
    intros n; cbn [map_member]; rewrite offered_enabled_map; split;
    [ intros (m' & Hm & Hn); eauto
    | intros (models' & m' & [= <-] & Hm & Hn); eauto ]
  | destruct (prototype_member Object_prototype provider)
      as [models|[|parameters]| |] eqn:Hproto;
    [ by apply prototype_has_no_models in Hproto
    | right; split; [intros (_ & k & [= <-] & Hk); lia|];
      eexists; split; [reflexivity|]; split; [discriminate|];
      intros n; split;
      [ intros H; by apply offered_disabled_only in H
      | intros (models & m & Hm & _); discriminate Hm ]
    | left; split; [|reflexivity];
      split; [reflexivity|]; exists (S parameters); split; [reflexivity | lia]
    | right; split; [intros (_ & k & Hk & _); discriminate Hk|];
      eexists; split; [reflexivity|]; split; [discriminate|];
      intros n; split;
      [ intros H; by apply offered_disabled_only in H
      | intros (models & m & Hm & _); discriminate Hm ]
    | right; split; [intros (_ & k & Hk & _); discriminate Hk|];
      eexists; split; [reflexivity|]; split; [discriminate|];
      intros n; split;
      [ intros H; by apply offered_disabled_only in H
      | intros (models & m & Hm & _); discriminate Hm ] ] ].

Lemma chat_options_cases (o : Providers) (provider : string) :
  (names_prototype_method o provider
   /\ chatModelOptions (Some o) provider = Abrupt TypeError)
  \/ (~ names_prototype_method o provider
      /\ exists options,
           chatModelOptions (Some o) provider = Normal options
           /\ options ≠ []
           /\ forall n, offered options n <-> listed o provider n).
Proof.
  unfold chatModelOptions. picker_cases o provider.
Qed.

Lemma embedding_options_cases (o : Providers) (provider : string) :
  (names_prototype_method o provider
   /\ embeddingModelOptions (Some o) provider = Abrupt TypeError)
  \/ (~ names_prototype_method o provider
      /\ exists options,
           embeddingModelOptions (Some o) provider = Normal options
           /\ options ≠ []
           /\ forall n, offered options n <-> listed o provider n).
Proof.
  unfold embeddingModelOptions. picker_cases o provider.
Qed.

(** X5: what the model pickers offer over a mapping that is present.
    Building the options throws a [TypeError] exactly when the selected
    provider is not a key of the mapping and names a method inherited
    from [Object.prototype] that declares a parameter (["constructor"],
    say), in both pickers alike; this never happens for a key of the
    mapping.  Whenever the options are built there is at least one, and
    the model names they let the user choose (the values of the enabled
    ones) are exactly the names listed under the selected provider: none
    when the provider is unknown or its list is empty, where the single
    option is a disabled notice. *)
Theorem pickers_offer_listed_models (o : Providers) (provider : string) :
  (chatModelOptions (Some o) provider = Abrupt TypeError
     <-> names_prototype_method o provider)
  /\ (embeddingModelOptions (Some o) provider = Abrupt TypeError
        <-> names_prototype_method o provider)
  /\ (names_prototype_method o provider -> provider ∉ Object_keys o)
  /\ ((exists chat embedding,
         chatModelOptions (Some o) provider = Normal chat
         /\ embeddingModelOptions (Some o) provider = Normal embedding)
      \/ names_prototype_method o provider)
  /\ (forall options,
        chatModelOptions (Some o) provider = Normal options
        \/ embeddingModelOptions (Some o) provider = Normal options ->
        options ≠ [] /\ forall n, offered options n <-> listed o provider n).
Proof.
  destruct (chat_options_cases o provider)
    as [[Hm Hc]|(Hm & chat & Hc & Hc1 & Hc2)];
    destruct (embedding_options_cases o provider)
      as [[Hm' He]|(Hm' & embedding & He & He1 & He2)];
    try contradiction.
  - rewrite Hc, He. split; [done|]. split; [done|]. split.
    + intros [Hget _] Hin.
      destruct (option_models_of (Some o) provider Hin) as [models Hmodels].
      simpl in Hmodels. congruence.
    + split; [by right|]. intros options [?|?]; discriminate.
  - rewrite Hc, He. split; [split; [discriminate | done]|].
    split; [split; [discriminate | done]|]. split; [done|].
    split; [left; eauto|].
    intros options [[= <-]|[= <-]]; by split.
Qed.

(** The three kinds of name that are not a key of the mapping: a
    method declaring a parameter, a method declaring none, and a name
    nothing answers to. *)
Lemma picker_on_names_outside_the_mapping :
  chatModelOptions (Some providers_a_b) "constructor" = Abrupt TypeError
  /\ chatModelOptions (Some providers_a_b) "toString" =
       Normal [{| value := ""; label := "No models available"; disabled := true |}]
  /\ chatModelOptions (Some providers_a_b) "c" =
       Normal [{| value := "";
                  label := "Invalid provider, please check backend logs";
                  disabled := true |}]
  /\ chatModelOptions (Some [("constructor", [{| name := "x"; displayName := "X" |}])])
       "constructor" =
       Normal [{| value := "x"; label := "X"; disabled := false |}].
Proof. repeat split. Qed.

(** The provider a successful fetch selects, by what is stored. *)
Lemma fetched_provider_truthy (stored : option string) :
  truthy (Some (stored_nonempty_else stored "")) = true
  <-> exists v, stored = Some v /\ v ≠ "".
Proof.
  rewrite truthy_Some, bool_decide_eq_true. unfold stored_nonempty_else.
  destruct stored as [v|].
  - destruct (decide (v = "")) as [->|Hne].
    + split; [done|]. intros (v & [= <-] & Hv). done.
    + split; [eauto|done].
  - split; [done|]. intros (v & Hv & _). discriminate.
Qed.

Lemma chat_options_throw (providers : option Providers) (provider : string) :
  chatModelOptions providers provider = Abrupt TypeError
  <-> providers = None
      \/ exists o, providers = Some o /\ names_prototype_method o provider.
Proof.
  destruct providers as [o|].
  - destruct (chat_options_cases o provider) as [[Hm ->]|(Hm & options & -> & _)].
    + split; [eauto|done].
    + split; [discriminate|]. intros [?|(o' & [= <-] & ?)]; [discriminate|done].
  - split; [by left | reflexivity].
Qed.

Lemma embedding_options_throw (providers : option Providers) (provider : string) :
  embeddingModelOptions providers provider = Abrupt TypeError
  <-> providers = None
      \/ exists o, providers = Some o /\ names_prototype_method o provider.
Proof.
  destruct providers as [o|].
  - destruct (embedding_options_cases o provider)
      as [[Hm ->]|(Hm & options & -> & _)].
    + split; [eauto|done].
    + split; [discriminate|]. intros [?|(o' & [= <-] & ?)]; [discriminate|done].
  - split; [by left | reflexivity].
Qed.

(** Building a picker for the default provider, the first key of the
    mapping, never throws: without a mapping the default is empty and
    there is no picker. *)
Lemma default_provider_builds (providers : option Providers) :
  first_key providers = ""
  \/ exists o, providers = Some o
               /\ ~ names_prototype_method o (first_key providers).
Proof.
  destruct providers as [[|[k models] o]|]; [by left | | by left].
  right. eexists. split; [reflexivity|]. intros [Hget _].
  simpl in Hget. by rewrite String.eqb_refl in Hget.
Qed.

Lemma picker_wrapper_throws (built : completion (list SelectOption)) :
  match built with
  | Normal options => Normal (Some options)
  | Abrupt e => Abrupt e
  end = Abrupt TypeError
  <-> built = Abrupt TypeError.
Proof.
  destruct built; split; congruence.
Qed.

(** X6: the guards of [fetchConfig] do not reach the render.  After a
    successful fetch, building the chat model picker throws a [TypeError]
    exactly when a non-empty chat provider other than ["custom_openai"] is
    stored locally and either the document has no chat provider mapping,
    or the stored name is not a key of that mapping and names a method
    inherited from [Object.prototype] that declares a parameter; building
    the embedding model picker throws under the same conditions on the
    stored embedding provider and the embedding mapping, with no exception
    for ["custom_openai"]. *)
Theorem picker_render_throws_iff (data : SettingsType) (w : World) :
  let s' := state (fetchConfig (delivers data) w).2 in
  (chat_model_picker s' = Abrupt TypeError <->
     exists v,
       localStorage w !! "chatModelProvider" = Some v
       /\ v ≠ "" /\ v ≠ "custom_openai"
       /\ (chatModelProviders data = None
           \/ exists o, chatModelProviders data = Some o
                        /\ names_prototype_method o v))
  /\ (embedding_model_picker s' = Abrupt TypeError <->
        exists v,
          localStorage w !! "embeddingModelProvider" = Some v
          /\ v ≠ ""
          /\ (embeddingModelProviders data = None
              \/ exists o, embeddingModelProviders data = Some o
                           /\ names_prototype_method o v)).
Proof.
  cbv zeta. rewrite fetchConfig_delivers. cbn [snd state].
  rewrite !js_or_stored, !first_or_empty_keys.
  unfold chat_model_picker, embedding_model_picker, form_rendered,
    chat_model_picker_shown, embedding_model_picker_shown.
  cbn [config isLoading selectedChatModelProvider selectedEmbeddingModelProvider
       nullish negb].
  rewrite bool_decide_eq_true_2 by eauto. rewrite !andb_true_l.
  rewrite !truthy_Some.
  split.
  - destruct (localStorage w !! "chatModelProvider") as [v|] eqn:Hs;
      [destruct (decide (v = "")) as [->|Hv]|].
    + (* stored but empty: the default provider *)
      cbn [stored_nonempty_else]. rewrite decide_True by reflexivity.
      split; [|intros (v & [= <-] & Hv & _); done].
      destruct (default_provider_builds (chatModelProviders data))
        as [->|(o & Ho & Hm)]; [discriminate|].
      destruct (bool_decide _ && _); [|discriminate].
      rewrite picker_wrapper_throws, chat_options_throw.
      intros [Hn|(o' & Ho' & Hm')]; [congruence|]. congruence.
    + cbn [stored_nonempty_else]. rewrite decide_False by done.
      rewrite (bool_decide_eq_true_2 (v ≠ "")) by done. rewrite andb_true_l.
      destruct (decide (v = "custom_openai")) as [->|Hc].
      * rewrite bool_decide_eq_true_2 by done. cbn [negb].
        split; [discriminate|]. intros (v & [= <-] & _ & Hv' & _). done.
      * rewrite bool_decide_eq_false_2 by congruence. cbn [negb].
        rewrite picker_wrapper_throws, chat_options_throw.
        split; [eauto 6|]. by intros (v' & [= <-] & _ & _ & H).
    + cbn [stored_nonempty_else].
      split; [|intros (v & Hv & _); discriminate].
      destruct (default_provider_builds (chatModelProviders data))
        as [->|(o & Ho & Hm)]; [discriminate|].
      destruct (bool_decide _ && _); [|discriminate].
      rewrite picker_wrapper_throws, chat_options_throw.
      intros [Hn|(o' & Ho' & Hm')]; [congruence|]. congruence.
  - destruct (localStorage w !! "embeddingModelProvider") as [v|] eqn:Hs;
      [destruct (decide (v = "")) as [->|Hv]|].
    + cbn [stored_nonempty_else]. rewrite decide_True by reflexivity.
      split; [|intros (v & [= <-] & Hv & _); done].
      destruct (default_provider_builds (embeddingModelProviders data))
        as [->|(o & Ho & Hm)]; [discriminate|].
      destruct (bool_decide _); [|discriminate].
      rewrite picker_wrapper_throws, embedding_options_throw.
      intros [Hn|(o' & Ho' & Hm')]; [congruence|]. congruence.
    + cbn [stored_nonempty_else]. rewrite decide_False by done.
      rewrite (bool_decide_eq_true_2 (v ≠ "")) by done.
      rewrite picker_wrapper_throws, embedding_options_throw.
      split; [eauto 6|]. by intros (v' & [= <-] & _ & H).
    + cbn [stored_nonempty_else].
      split; [|intros (v & Hv & _); discriminate].
      destruct (default_provider_builds (embeddingModelProviders data))
        as [->|(o & Ho & Hm)]; [discriminate|].
      destruct (bool_decide _); [|discriminate].
      rewrite picker_wrapper_throws, embedding_options_throw.
      intros [Hn|(o' & Ho' & Hm')]; [congruence|]. congruence.
Qed.

(** ** The provider selectors and the form *)

Lemma custom_openai_eqb (v : string) :
  v ≠ "custom_openai" -> String.eqb v "custom_openai" = false.
Proof.
  intros Hne. by destruct (String.eqb_spec v "custom_openai").
Qed.

Lemma onChatProviderChange_no_document (w : World) (v : string) :
  config (state w) = None ->
  v ≠ "custom_openai" ->
  onChatProviderChange v w =
    (Abrupt TypeError,
     with_chat_selection (Some v) (selectedChatModel (state w)) w).
Proof.
  intros Hc Hne. destruct w as [s o ls tr]. simpl in Hc.
  unfold onChatProviderChange.
  do 2 (erewrite bind_step by reflexivity).
  rewrite (custom_openai_eqb v Hne). cbn [state]. rewrite Hc. reflexivity.
Qed.

Lemma onEmbeddingProviderChange_no_document (w : World) (v : string) :
  config (state w) = None ->
  onEmbeddingProviderChange v w =
    (Abrupt TypeError,
     with_embedding_selection (Some v) (selectedEmbeddingModel (state w)) w).
Proof.
  intros Hc. destruct w as [s o ls tr]. simpl in Hc.
  unfold onEmbeddingProviderChange.
  do 2 (erewrite bind_step by reflexivity).
  cbn [state]. rewrite Hc. reflexivity.
Qed.

(** X7: for a value the selector offers (a key of the loaded
    document's mapping) the only way a provider change can fail is an
    empty model list.  The chat handler throws exactly when the value is
    not ["custom_openai"] and its list is empty, and completes normally
    otherwise; the embedding handler throws exactly when the value's list
    is empty, and completes normally otherwise.  Each characterisation
    holds on its own, whatever the other mapping offers. *)
Theorem offered_provider_change_outcome :
  (forall (w : World) (c : SettingsType) (value : string),
     config (state w) = Some c ->
     value ∈ provider_options (chatModelProviders c) ->
     ((onChatProviderChange value w).1 = Abrupt TypeError <->
        value ≠ "custom_openai"
        /\ models_of (chatModelProviders c) value = Some [])
     /\ ((onChatProviderChange value w).1 = Normal tt <->
           value = "custom_openai"
           \/ exists m models,
                models_of (chatModelProviders c) value = Some (m :: models)))
  /\ (forall (w : World) (c : SettingsType) (value : string),
        config (state w) = Some c ->
        value ∈ provider_options (embeddingModelProviders c) ->
        ((onEmbeddingProviderChange value w).1 = Abrupt TypeError <->
           models_of (embeddingModelProviders c) value = Some [])
        /\ ((onEmbeddingProviderChange value w).1 = Normal tt <->
              exists m models,
                models_of (embeddingModelProviders c) value = Some (m :: models))).
Proof.
  split.
  - intros w c value Hc Hin.
    destruct (option_models_of _ _ Hin) as [cm Hcm].
    destruct (decide (value = "custom_openai")) as [->|Hne].
    + rewrite onChatProviderChange_custom. cbn [fst].
      split; [split; [discriminate | intros [? _]; done]|].
      split; [eauto | done].
    + rewrite (onChatProviderChange_other w c value Hc Hne), Hcm.
      destruct cm as [|m models]; cbn [fst].
      * split; [done|].
        split; [discriminate|]. intros [?|(? & ? & ?)]; [done | discriminate].
      * split; [split; [discriminate | intros [_ ?]; discriminate]|].
        split; [eauto | done].
  - intros w c value Hc Hin.
    destruct (option_models_of _ _ Hin) as [em Hem].
    rewrite (onEmbeddingProviderChange_run w c value Hc), Hem.
    destruct em as [|m models]; cbn [fst].
    + split; [done|]. split; [discriminate | intros (? & ? & ?); discriminate].
    + split; [split; discriminate|]. split; [eauto | done].
Qed.

(** On a document whose chat mapping offers the custom endpoint with an
    empty list and whose embedding mapping lists a model under it; and on
    one whose only offer is the custom endpoint, without any embedding
    mapping. *)
Lemma offered_provider_change_outcome_witness :
  (onChatProviderChange "openai" (ready_world custom_chat_document)).1 = Normal tt
  /\ (onChatProviderChange "custom_openai" (ready_world custom_chat_document)).1
       = Normal tt
  /\ (onEmbeddingProviderChange "custom_openai"
        (ready_world custom_chat_document)).1 = Normal tt
  /\ (onChatProviderChange "b" (ready_world custom_empty_document)).1
       = Abrupt TypeError
  /\ (onEmbeddingProviderChange "custom_openai"
        (ready_world custom_empty_document)).1 = Abrupt TypeError
  /\ (onChatProviderChange "custom_openai" (ready_world only_custom_document)).1
       = Normal tt.
Proof.
  destruct offered_provider_change_outcome as [Hchat Hemb].
  assert (config (state (ready_world custom_chat_document))
          = Some custom_chat_document) as Hc1 by (vm_compute; reflexivity).
  assert (config (state (ready_world custom_empty_document))
          = Some custom_empty_document) as Hc2 by (vm_compute; reflexivity).
  assert (config (state (ready_world only_custom_document))
          = Some only_custom_document) as Hc3 by (vm_compute; reflexivity).
  split; [|split; [|split; [|split; [|split]]]].
  - apply (Hchat _ _ "openai" Hc1).
    + apply elem_of_cons; right; apply elem_of_cons; by left.
    + right. eexists _, _. reflexivity.
  - apply (Hchat _ _ "custom_openai" Hc1).
    + do 2 (apply elem_of_cons; right). apply elem_of_cons; by left.
    + by left.
  - apply (Hemb _ _ "custom_openai" Hc1).
    + apply elem_of_cons; right; apply elem_of_cons; by left.
    + eexists _, _. reflexivity.
  - apply (Hchat _ _ "b" Hc2).
    + apply elem_of_cons; right; apply elem_of_cons; by left.
    + split; [discriminate | reflexivity].
  - apply (Hemb _ _ "custom_openai" Hc2).
    + apply elem_of_cons; by left.
    + reflexivity.
  - apply (Hchat _ _ "custom_openai" Hc3).
    + apply elem_of_cons; by left.
    + by left.
Defined.



Lemma with_chat_selection_twice (p p' m m' : option string) (w : World) :
  with_chat_selection p m (with_chat_selection p' m' w) = with_chat_selection p m w.
Proof. reflexivity. Qed.

Lemma with_embedding_selection_twice (p p' m m' : option string) (w : World) :
  with_embedding_selection p m (with_embedding_selection p' m' w)
  = with_embedding_selection p m w.
Proof. reflexivity. Qed.

(** Whatever its outcome, a chat provider change leaves the world with
    only the chat selection replaced. *)
Lemma onChatProviderChange_world (w : World) (v : string) :
  exists m, (onChatProviderChange v w).2 = with_chat_selection (Some v) m w.
Proof.
  destruct (decide (v = "custom_openai")) as [->|Hne].
  - rewrite onChatProviderChange_custom. eauto.
  - destruct (config (state w)) as [c|] eqn:Hc.
    + rewrite (onChatProviderChange_other w c v Hc Hne).
      destruct (models_of _ _) as [[|first models]|]; eauto.
    + rewrite (onChatProviderChange_no_document w v Hc Hne). eauto.
Qed.

Lemma onEmbeddingProviderChange_world (w : World) (v : string) :
  exists m,
    (onEmbeddingProviderChange v w).2 = with_embedding_selection (Some v) m w.
Proof.
  destruct (config (state w)) as [c|] eqn:Hc.
  - rewrite (onEmbeddingProviderChange_run w c v Hc).
    destruct (models_of _ _) as [[|first models]|]; eauto.
  - rewrite (onEmbeddingProviderChange_no_document w v Hc). eauto.
Qed.

(** X9: the last selection wins.  A chat provider change that
    completes normally leaves the same world whether or not another chat
    provider was selected just before, and whether or not that earlier
    change threw: nothing of the earlier selection survives it.  The same
    holds, independently, for the embedding provider. *)
Theorem last_provider_selection_wins :
  (forall (w : World) (earlier later : string),
     (onChatProviderChange later w).1 = Normal tt ->
     onChatProviderChange later (onChatProviderChange earlier w).2
     = onChatProviderChange later w)
  /\ (forall (w : World) (earlier later : string),
        (onEmbeddingProviderChange later w).1 = Normal tt ->
        onEmbeddingProviderChange later (onEmbeddingProviderChange earlier w).2
        = onEmbeddingProviderChange later w).
Proof.
  split.
  - intros w chat1 chat2 Hchat.
    destruct (onChatProviderChange_world w chat1) as [m1 ->].
    destruct (decide (chat2 = "custom_openai")) as [->|Hne].
    + by rewrite !onChatProviderChange_custom, with_chat_selection_twice.
    + destruct (config (state w)) as [c|] eqn:Hc.
      * assert (config (state (with_chat_selection (Some chat1) m1 w)) = Some c)
          as Hc' by (destruct w; exact Hc).
        rewrite (onChatProviderChange_other _ c chat2 Hc' Hne).
        rewrite (onChatProviderChange_other w c chat2 Hc Hne) in Hchat |- *.
        destruct (models_of _ _) as [[|first models]|]; try discriminate Hchat.
        by rewrite with_chat_selection_twice.
      * rewrite (onChatProviderChange_no_document w chat2 Hc Hne) in Hchat.
        discriminate Hchat.
  - intros w embedding1 embedding2 Hemb.
    destruct (onEmbeddingProviderChange_world w embedding1) as [m1 ->].
    destruct (config (state w)) as [c|] eqn:Hc.
    + assert (config (state (with_embedding_selection (Some embedding1) m1 w))
              = Some c) as Hc' by (destruct w; exact Hc).
      rewrite (onEmbeddingProviderChange_run _ c embedding2 Hc').
      rewrite (onEmbeddingProviderChange_run w c embedding2 Hc) in Hemb |- *.
      destruct (models_of _ _) as [[|first models]|]; try discriminate Hemb.
      by rewrite with_embedding_selection_twice.
    + rewrite (onEmbeddingProviderChange_no_document w embedding2 Hc) in Hemb.
      discriminate Hemb.
Qed.

(** A chat change after one that threw, on a document with no
    embedding mapping at all; and an embedding change after another. *)
Lemma last_provider_selection_wins_witness :
  (let w := ready_world (document (Some providers_a_b) None) in
   (onChatProviderChange "b" w).1 = Abrupt TypeError
   /\ onChatProviderChange "a" (onChatProviderChange "b" w).2
      = onChatProviderChange "a" w)
  /\ (let w := ready_world custom_chat_document in
      onEmbeddingProviderChange "custom_openai"
        (onEmbeddingProviderChange "openai" w).2
      = onEmbeddingProviderChange "custom_openai" w).
Proof.
  cbv zeta. destruct last_provider_selection_wins as [Hchat Hemb].
  split; [split|].
  - vm_compute. reflexivity.
  - apply Hchat. vm_compute. reflexivity.
  - apply Hemb. vm_compute. reflexivity.
Defined.

(** ** The field inputs *)

Lemma with_config_same (w : World) (c : SettingsType) :
  config (state w) = Some c -> with_config (Some c) w = w.
Proof.
  destruct w as [[] o ls tr]. simpl. by intros ->.
Qed.

Lemma get_set_field (f g : field) (v : string) (c : SettingsType) :
  get_field g (set_field f v c) = if decide (f = g) then v else get_field g c.
Proof.
  destruct f, g; reflexivity.
Qed.

(** Typing replaces the document and nothing else; the provider
    mappings stay, and each field holds what was typed into it last. *)
Lemma type_into_fields_run (edits : list (field * string)) :
  forall (w : World) (c : SettingsType),
    config (state w) = Some c ->
    exists c',
      type_into_fields edits w = (Normal tt, with_config (Some c') w)
      /\ chatModelProviders c' = chatModelProviders c
      /\ embeddingModelProviders c' = embeddingModelProviders c
      /\ forall f, get_field f c' = default (get_field f c) (last_edit f edits).
Proof.
  induction edits as [|[f v] rest IH]; intros w c Hc.
  - exists c. rewrite (with_config_same w c Hc). by repeat split.
  - assert (type_into_fields ((f, v) :: rest) w
            = type_into_fields rest (with_config (Some (set_field f v c)) w))
      as ->.
    { cbn [type_into_fields]. erewrite bind_step by reflexivity.
      rewrite Hc. erewrite bind_step by reflexivity. reflexivity. }
    destruct (IH (with_config (Some (set_field f v c)) w) (set_field f v c))
      as (c' & Hrun & Hchat & Hemb & Hfields); [by destruct w|].
    exists c'. split; [|split; [|split]].
    + rewrite Hrun. reflexivity.
    + rewrite Hchat. reflexivity.
    + rewrite Hemb. reflexivity.
    + intros g. rewrite Hfields. cbn [last_edit].
      destruct (last_edit g rest) as [x|]; [reflexivity|].
      cbn [default]. rewrite get_set_field.
      by destruct (decide (f = g)).
Qed.

(** X10: typing into the scalar fields edits the in-memory document
    only.  After any sequence of field edits on a loaded document each
    field holds the value typed into it last (its fetched value when never
    edited), the two provider mappings are those fetched, and selections,
    [localStorage], [isOpen] and the record of outside effects are
    untouched; the save that follows posts exactly that edited document. *)
Theorem field_edits_reach_the_post
    (edits : list (field * string)) (w : World) (c : SettingsType)
    (response : settled unit) :
  config (state w) = Some c ->
  exists c',
    type_into_fields edits w = (Normal tt, with_config (Some c') w)
    /\ chatModelProviders c' = chatModelProviders c
    /\ embeddingModelProviders c' = embeddingModelProviders c
    /\ (forall f, get_field f c' = default (get_field f c) (last_edit f edits))
    /\ exists rest,
         trace (handleSubmit response (type_into_fields edits w).2).2
         = (trace w ++ FetchPost c' :: rest)%list.
Proof.
  intros Hc.
  destruct (type_into_fields_run edits w c Hc) as (c' & Hrun & Hchat & Hemb & Hf).
  exists c'. rewrite Hrun. cbn [snd]. repeat split; try assumption.
  assert (config (state (with_config (Some c') w)) = Some c') as Hc'
    by (by destruct w).
  destruct response as [[]|e].
  - rewrite (handleSubmit_resolved _ c' Hc'). eexists.
    cbn [snd trace]. destruct w. reflexivity.
  - rewrite (handleSubmit_rejected _ c' e Hc'). eexists.
    cbn [snd trace]. destruct w. reflexivity.
Qed.

Lemma field_edits_reach_the_post_witness :
  exists c',
    type_into_fields
      [(OpenaiApiKey, "sk-1"); (GroqApiKey, "gsk"); (OpenaiApiKey, "sk-2")]
      (ready_world sample_document)
    = (Normal tt, with_config (Some c') (ready_world sample_document))
    /\ openaiApiKey c' = "sk-2"
    /\ groqApiKey c' = "gsk"
    /\ ollamaApiUrl c' = ""
    /\ chatModelProviders c' = Some providers_a_b.
Proof.
  assert (config (state (ready_world sample_document)) = Some sample_document)
    as Hc by (vm_compute; reflexivity).
  destruct (field_edits_reach_the_post
              [(OpenaiApiKey, "sk-1"); (GroqApiKey, "gsk"); (OpenaiApiKey, "sk-2")]
              (ready_world sample_document) sample_document (Fulfilled tt) Hc)
    as (c' & Hrun & Hchat & _ & Hfields & _).
  exists c'. split; [exact Hrun|].
  split; [exact (Hfields OpenaiApiKey)|].
  split; [exact (Hfields GroqApiKey)|].
  split; [exact (Hfields OllamaApiUrl)|].
  exact Hchat.
Defined.
(** ** A document without providers *)

Lemma no_options_no_default (providers : option Providers) :
  provider_options providers = [] ->
  first_or_empty (Object_keys (default [] providers)) = ""
  /\ first_model_name providers "" = "".
Proof.
  destruct providers as [[|[k models] o]|]; try discriminate; by intros _.
Qed.

(** X11: a document that offers no provider, loaded with no selection
    stored.  All four selections become the empty string, so neither
    model picker nor the free-text inputs are part of the form; and the
    save that follows posts the document and writes only the two
    custom-endpoint entries (an absent one as the empty string), leaving
    the four selection entries absent. *)
Theorem empty_document_selects_nothing (data : SettingsType) (w : World) :
  provider_options (chatModelProviders data) = [] ->
  provider_options (embeddingModelProviders data) = [] ->
  localStorage w !! "chatModelProvider" = None ->
  localStorage w !! "chatModel" = None ->
  localStorage w !! "embeddingModelProvider" = None ->
  localStorage w !! "embeddingModel" = None ->
  let w' := (fetchConfig (delivers data) w).2 in
  let w'' := (handleSubmit (Fulfilled tt) w').2 in
  (selectedChatModelProvider (state w') = Some ""
   /\ selectedChatModel (state w') = Some ""
   /\ selectedEmbeddingModelProvider (state w') = Some ""
   /\ selectedEmbeddingModel (state w') = Some "")
  /\ (chat_model_picker (state w') = Normal None
      /\ embedding_model_picker (state w') = Normal None
      /\ custom_fields_shown (state w') = false)
  /\ trace w'' =
       (trace w ++
          [FetchGet; FetchPost data;
           SetItem "openAIApiKey" (default "" (localStorage w !! "openAIApiKey"));
           SetItem "openAIBaseURL" (default "" (localStorage w !! "openAIBaseURL"));
           SetIsOpen false; Reload])%list
  /\ (localStorage w'' !! "chatModelProvider" = None
      /\ localStorage w'' !! "chatModel" = None
      /\ localStorage w'' !! "embeddingModelProvider" = None
      /\ localStorage w'' !! "embeddingModel" = None).
Proof.
  intros Hchat Hemb H1 H2 H3 H4. cbv zeta.
  destruct (no_options_no_default _ Hchat) as [Hck Hcm].
  destruct (no_options_no_default _ Hemb) as [Hek Hem].
  assert ((fetchConfig (delivers data) w).2 =
          mkWorld
            (mkState (Some data)
               (default [] (chatModelProviders data))
               (default [] (embeddingModelProviders data))
               (Some "") (Some "") (Some "") (Some "")
               (default "" (localStorage w !! "openAIApiKey"))
               (default "" (localStorage w !! "openAIBaseURL"))
               false (isUpdating (state w)))
            (isOpen w) (localStorage w) (trace w ++ [FetchGet])) as ->.
  { rewrite fetchConfig_delivers. cbn [snd].
    rewrite H1, H2, H3, H4. cbn [js_or].
    rewrite Hck, Hek, Hcm, Hem.
    rewrite !OpenRouterFacts.js_or_empty. reflexivity. }
  split; [by repeat split|]. split.
  - unfold chat_model_picker, embedding_model_picker, custom_fields_shown,
      chat_model_picker_shown, embedding_model_picker_shown.
    cbn [state config selectedChatModelProvider selectedEmbeddingModelProvider].
    change (truthy (Some "")) with false.
    rewrite !andb_false_r. cbn [andb]. by repeat split.
  - erewrite handleSubmit_resolved by reflexivity.
    cbn [snd trace localStorage state selectedChatModelProvider selectedChatModel
         selectedEmbeddingModelProvider selectedEmbeddingModel
         customOpenAIApiKey customOpenAIBaseURL].
    change (writes _ (Some "")) with (@nil event).
    change (store ?k (Some "") ?m) with m.
    split.
    + rewrite <- !(assoc_L (++)). reflexivity.
    + rewrite !lookup_insert_ne by discriminate. by repeat split.
Qed.

Lemma empty_document_selects_nothing_witness :
  let w' := (fetchConfig (delivers (document None (Some []))) fresh_world).2 in
  selectedChatModelProvider (state w') = Some ""
  /\ chat_model_picker (state w') = Normal None
  /\ trace (handleSubmit (Fulfilled tt) w').2 =
       [FetchGet; FetchPost (document None (Some []));
        SetItem "openAIApiKey" ""; SetItem "openAIBaseURL" "";
        SetIsOpen false; Reload].
Proof.
  cbv zeta.
  destruct (empty_document_selects_nothing (document None (Some [])) fresh_world
              eq_refl eq_refl eq_refl eq_refl eq_refl eq_refl)
    as ((Hp & _) & (Hpicker & _) & Htrace & _).
  split; [exact Hp|]. split; [exact Hpicker|]. exact Htrace.
Defined.
(** ** Closing *)

(** X12: closing the dialog only asks the parent to close it: the
    component state (document, selections, typed values) and
    [localStorage] stay as they are, and while the dialog is closed the
    open effect fetches nothing. *)
Theorem closed_dialog_does_not_fetch (w : World) (response : settled Response) :
  let closed := (onClose w).2 in
  (onClose w).1 = Normal tt
  /\ state closed = state w
  /\ localStorage closed = localStorage w
  /\ trace closed = (trace w ++ [SetIsOpen false])%list
  /\ isOpen closed = false
  /\ open_effect response closed = (Normal tt, closed).
Proof.
  destruct w as [s o ls tr]. cbv zeta. by repeat split.
Qed.
End SettingsDialogMore.
